(** * runAndroid.js: the build-description scanner of [local-cli/runAndroid]

    A shallow embedding of [findPreviousTerm], [findVariants], [splitVariant],
    [isSeparateBuildEnabled] and [getManifestFile], and the properties of the
    manifest path resolution that rest on them.

    Conventions of the embedding.
    - A JavaScript string is a Rocq [string]; its characters stand for code
      units below 256.  [content[pos]] is [charAt], which is [None]
      ([undefined]) outside the string, also at negative positions.
    - Positions and counters are [Z]: [findPreviousTerm] decrements its
      position below zero.
    - Arrays that are shared between caller and callee live in a store
      ([gmap loc (list string)]); a function that receives an array receives
      its location.
    - A [while] loop is a [Fixpoint] on a step budget; [None] means that the
      budget ran out.  A loop that does not terminate yields [None] for every
      budget.
    - A thrown exception is the outcome [Throw].
    - The file system is a finite map from a path, as the program spells it,
      to the text a read of that path returns.  Resolving a path is the file
      system's work: a file that is read under two spellings is listed under
      both.
    - A name that the source splices into a pattern is matched as literal
      text.  This is what the pattern denotes for a name made of word
      characters, as ['buildTypes'] and ['MainActivity'], the names the
      source passes. *)

From Stdlib Require Import ZArith Ascii String Bool Lia.
From stdpp Require Import gmap strings list.

Local Open Scope string_scope.
Local Open Scope Z_scope.

(** ** Values *)

Inductive value : Type :=
| Undefined
| Null
| Str (s : string).

(** [String(v)], the conversion [RegExp.prototype.exec] applies to its
    argument. *)
Definition ToString (v : value) : string :=
  match v with
  | Undefined => "undefined"
  | Null => "null"
  | Str s => s
  end.

(** Truthiness, as tested by [if (flavor)]. *)
Definition ToBoolean (v : value) : bool :=
  match v with
  | Str s => negb (String.eqb s "")
  | _ => false
  end.

(** [Array.prototype.join]: [undefined] and [null] elements contribute the
    empty string. *)
Definition join_elem (v : value) : string :=
  match v with
  | Str s => s
  | _ => ""
  end.

Definition join (sep : string) (l : list value) : string :=
  String.concat sep (map join_elem l).

(** ** Characters and strings *)

Definition charAt (content : string) (pos : Z) : option ascii :=
  if pos <? 0 then None else String.get (Z.to_nat pos) content.

(** [content[pos] === c] *)
Definition strict_eq (o : option ascii) (c : ascii) : bool :=
  match o with
  | Some a => Ascii.eqb a c
  | None => false
  end.

Definition in_range (lo hi : N) (c : ascii) : bool :=
  let n := N_of_ascii c in ((lo <=? n) && (n <=? hi))%N.

(** The class [\w]: letters, digits and the underscore. *)
Definition is_word (c : ascii) : bool :=
  in_range 48 57 c || in_range 65 90 c || in_range 97 122 c
  || Ascii.eqb c "_".

(** The class [\s] below 256: tab, line feed, vertical tab, form feed,
    carriage return, space and the no-break space. *)
Definition is_space (c : ascii) : bool :=
  in_range 9 13 c || Ascii.eqb c " " || (N_of_ascii c =? 160)%N.

(** Case folding of the [i] flag: a character is compared through its upper
    case.  Below 256 the letters with an upper case below 256 are a-z and the
    Latin-1 letters 224-254 without 247; every other character is compared
    as it is. *)
Definition Canonicalize (c : ascii) : ascii :=
  if in_range 97 122 c || (in_range 224 254 c && negb (N_of_ascii c =? 247)%N)
  then ascii_of_N (N_of_ascii c - 32)
  else c.

Definition lower_char (c : ascii) : ascii :=
  if in_range 65 90 c || (in_range 192 222 c && negb (N_of_ascii c =? 215)%N)
  then ascii_of_N (N_of_ascii c + 32)
  else c.

Fixpoint toLowerCase (s : string) : string :=
  match s with
  | EmptyString => EmptyString
  | String c s' => String (lower_char c) (toLowerCase s')
  end.

Fixpoint drop_chars (n : nat) (s : string) : string :=
  match n, s with
  | S n', String _ s' => drop_chars n' s'
  | _, _ => s
  end.

Fixpoint take_chars (n : nat) (s : string) : string :=
  match n, s with
  | S n', String c s' => String c (take_chars n' s')
  | _, _ => EmptyString
  end.

(** [s.substring(i)] and [s.substring(0, i)] for [0 <= i]. *)
Definition substring_from (i : nat) (s : string) : string := drop_chars i s.
Definition substring_to (i : nat) (s : string) : string := take_chars i s.

(** Length of the longest run of [p]-characters at the head of [s]. *)
Fixpoint span_len (p : ascii -> bool) (s : string) : nat :=
  match s with
  | String c s' => if p c then S (span_len p s') else O
  | EmptyString => O
  end.

(** ** The regular expressions of the source

    Every pattern of the source is a sequence of literals and of greedy
    character-class repetitions, each followed by a character outside the
    class (or by the end of the pattern), so a match anchored at one position
    is found without backtracking: a shorter repetition would leave a
    character of the class where the pattern wants another one.  An anchored
    matcher returns what the caller needs of the match; [search] tries the
    positions from left to right, as [exec] and [match] do from index 0. *)

(** Literal text at the head of [s]; [fold] is the identity or
    [Canonicalize].  Returns the rest of [s]. *)
Fixpoint literal (fold : ascii -> ascii) (p s : string) : option string :=
  match p, s with
  | EmptyString, _ => Some s
  | String a p', String b s' =>
      if Ascii.eqb (fold a) (fold b) then literal fold p' s' else None
  | String _ _, EmptyString => None
  end.

Fixpoint search {A : Type} (m : string -> option A) (s : string) (i : nat)
  : option (nat * A) :=
  match m s with
  | Some a => Some (i, a)
  | None =>
      match s with
      | EmptyString => None
      | String _ s' => search m s' (S i)
      end
  end.

(** [new RegExp(`${variantType}\\s+{`, 'ig')], anchored: the length of the
    match.  [variantType] is spliced into the pattern source; it is modelled
    as literal text, which is what the splice denotes for a name without
    pattern metacharacters (the source passes ['buildTypes']). *)
Definition header_at (variantType s : string) : option nat :=
  match literal Canonicalize variantType s with
  | None => None
  | Some rest =>
      let w := span_len is_space rest in
      if (0 <? w)%nat && strict_eq (String.get w rest) "{"
      then Some (String.length variantType + w + 1)%nat
      else None
  end.

(** [regex.exec(content)] on the fresh header pattern: [regex.lastIndex] after
    a match, [None] for [null]. *)
Definition exec_header (variantType content : string) : option Z :=
  match search (header_at variantType) content 0 with
  | Some (i, len) => Some (Z.of_nat (i + len))
  | None => None
  end.

(** Splitting a pattern source at its top-level bars. *)
Fixpoint split_bar (acc src : string) : list string :=
  match src with
  | EmptyString => [acc]
  | String c src' =>
      if Ascii.eqb c "|" then acc :: split_bar "" src'
      else split_bar (acc ++ String c "") src'
  end.

(** An alternation of literals, anchored: some alternative is at the head of
    [s].  The caller reads [match.index] only, which does not depend on the
    alternative that is taken. *)
Definition alternation_at (alts : list string) (s : string) : option unit :=
  if existsb (fun a => bool_decide (is_Some (literal Canonicalize a s))) alts
  then Some tt else None.

(** [new RegExp(src, 'gi').exec(s)] for a source made of literals and bars:
    [match.index]. *)
Definition exec_alternation (src s : string) : option nat :=
  match search (alternation_at (split_bar "" src)) s 0 with
  | Some (i, _) => Some i
  | None => None
  end.

Definition separateBuildName : string := "enableSeparateBuildPerCPUArchitecture".

(** [/enableSeparateBuildPerCPUArchitecture\s+=\s+([\w]+)/], anchored: the
    text of group 1. *)
Definition separateBuild_at (s : string) : option string :=
  match literal (fun c => c) separateBuildName s with
  | None => None
  | Some rest =>
      let w1 := span_len is_space rest in
      match w1, drop_chars w1 rest with
      | S _, String "="%char rest' =>
          let w2 := span_len is_space rest' in
          let rest'' := drop_chars w2 rest' in
          match w2, span_len is_word rest'' with
          | S _, S k => Some (take_chars (S k) rest'')
          | _, _ => None
          end
      | _, _ => None
      end
  end.

(** [content.match(/.../)]: group 1 of the leftmost match. *)
Definition match_separateBuild (content : string) : option string :=
  match search separateBuild_at content 0 with
  | Some (_, g) => Some g
  | None => None
  end.

(** ** The store, exceptions and the computation monad *)

Definition loc : Type := positive.
Abbreviation heap := (gmap loc (list string)).
Abbreviation files := (gmap string string).

Inductive error : Type :=
| TypeError   (* a property read of [null] or [undefined], a call of a non-function *)
| ENOENT.     (* [fs.readFileSync] on a missing file *)

Inductive outcome (A : Type) : Type :=
| Ret (a : A)
| Throw (e : error).
Arguments Ret {A} a.
Arguments Throw {A} e.

(** A computation from a store: [None] when the step budget ran out,
    otherwise the outcome and the store it leaves. *)
Definition M (A : Type) : Type := heap -> option (outcome A * heap).

Definition pure {A} (a : A) : M A := fun h => Some (Ret a, h).
Definition throw {A} (e : error) : M A := fun h => Some (Throw e, h).
Definition diverge {A} : M A := fun _ => None.

Definition bind {A B} (c : M A) (k : A -> M B) : M B :=
  fun h =>
    match c h with
    | None => None
    | Some (Throw e, h') => Some (Throw e, h')
    | Some (Ret a, h') => k a h'
    end.

Notation "'let*' x ':=' c 'in' k" := (bind c (fun x => k))
  (at level 10, x pattern, c at level 100, k at level 200).

(** A budgeted pure computation inside [M]. *)
Definition lift {A} (o : option A) : M A :=
  match o with
  | Some a => pure a
  | None => diverge
  end.

(** An array literal: a fresh location. *)
Definition alloc (l : list string) : M loc :=
  fun h => let r := fresh (dom h) in Some (Ret r, <[r := l]> h).

(** Position of the first element equal to [x], [-1] when there is none. *)
Fixpoint index_of (x : string) (l : list string) (i : Z) : Z :=
  match l with
  | [] => -1
  | y :: l' => if String.eqb y x then i else index_of x l' (i + 1)
  end.

(** [variants.indexOf(x)]; a value that is no array has no [indexOf]. *)
Definition indexOf (r : loc) (x : string) : M Z :=
  fun h =>
    match h !! r with
    | Some l => Some (Ret (index_of x l 0), h)
    | None => Some (Throw TypeError, h)
    end.

(** [variants.push(x)] *)
Definition push (r : loc) (x : string) : M unit :=
  fun h =>
    match h !! r with
    | Some l => Some (Ret tt, <[r := (l ++ [x])%list]> h)
    | None => Some (Throw TypeError, h)
    end.

(** [fs.readFileSync(filePath, 'utf8')]: what the file system answers for the
    path as it is spelled in the call. *)
Definition readFileSync (fs : files) (filePath : string) : M string :=
  match fs !! filePath with
  | Some content => pure content
  | None => throw ENOENT
  end.

(** ** findPreviousTerm *)

(** [while (content[endPos] === ' ') --endPos;] *)
Fixpoint skip_spaces (fuel : nat) (content : string) (endPos : Z) : option Z :=
  match fuel with
  | O => None
  | S fuel' =>
      if strict_eq (charAt content endPos) " "
      then skip_spaces fuel' content (endPos - 1)
      else Some endPos
  end.

(** [regex.exec(content[endPos])] for [/\w/]: the argument is converted to a
    string, and ["undefined"] holds a word character. *)
Definition exec_word (c : option ascii) : bool :=
  match c with
  | Some a => is_word a
  | None => true
  end.

(** [while (regex.exec(content[endPos])) { word.push(content[endPos]); --endPos; }] *)
Fixpoint collect_word (fuel : nat) (content : string) (endPos : Z)
    (word : list (option ascii)) : option (list (option ascii)) :=
  match fuel with
  | O => None
  | S fuel' =>
      if exec_word (charAt content endPos)
      then collect_word fuel' content (endPos - 1) (word ++ [charAt content endPos])%list
      else Some word
  end.

(** [word.join('')] on an array of one-character strings and [undefined]s. *)
Fixpoint join_chars (word : list (option ascii)) : string :=
  match word with
  | [] => EmptyString
  | Some c :: word' => String c (join_chars word')
  | None :: word' => join_chars word'
  end.

Definition findPreviousTerm (fuel : nat) (content : string) (endPos : Z)
  : option string :=
  match skip_spaces fuel content endPos with
  | None => None
  | Some endPos' =>
      match collect_word fuel content endPos' [] with
      | None => None
      | Some word => Some (join_chars (reverse word))
      end
  end.

(** ** findVariants *)

(** The [while (counter > 0)] loop of [findVariants]; it returns the value of
    [pos] at the exit of the loop. *)
Fixpoint scan (fuel : nat) (content : string) (variants : loc)
    (counter pos : Z) : M Z :=
  match fuel with
  | O => diverge
  | S fuel' =>
      if 0 <? counter then
        let* counter :=
          (if strict_eq (charAt content pos) "{" then
             let counter := counter + 1 in
             let* _ :=
               (if counter =? 2 then
                  let* previousTerm := lift (findPreviousTerm fuel' content (pos - 1)) in
                  let* i := indexOf variants previousTerm in
                  if i =? -1 then push variants previousTerm else pure tt
                else pure tt) in
             pure counter
           else if strict_eq (charAt content pos) "}" then
             pure (counter - 1)
           else pure counter) in
        scan fuel' content variants counter (pos + 1)
      else pure pos
  end.

(** [defaultVariants] is [Some r] for the array at [r] and [None] for a
    missing, [undefined] or [null] argument. *)
Definition findVariants (fs : files) (fuel : nat) (filePath variantType : string)
    (defaultVariants : option loc) : M loc :=
  let* content := readFileSync fs filePath in
  let* variants :=
    (match defaultVariants with
     | Some r => pure r
     | None => alloc []
     end) in
  match exec_header variantType content with
  | None => pure variants
  | Some lastIndex =>
      let variantStartPos := lastIndex in
      let* _ := scan fuel content variants 1 (variantStartPos + 1) in
      pure variants
  end.

(** ** splitVariant *)

(** [buildTypes.join('|')] *)
Definition join_bar (r : loc) : M string :=
  fun h =>
    match h !! r with
    | Some l => Some (Ret (String.concat "|" l), h)
    | None => Some (Throw TypeError, h)
    end.

(** [variant.substring(...)]: [undefined] and [null] have no properties. *)
Definition substring_of (variant : value) (f : string -> string) : M value :=
  match variant with
  | Str s => pure (Str (f s))
  | _ => throw TypeError
  end.

Definition splitVariant (fs : files) (fuel : nat) (gradleFilePath : string)
    (variant : value) : M (value * value) :=
  let* defaults := alloc ["debug"; "release"] in
  let* buildTypes := findVariants fs fuel gradleFilePath "buildTypes" (Some defaults) in
  let* src := join_bar buildTypes in
  match exec_alternation src (ToString variant) with
  | Some index =>
      let* buildType := substring_of variant (substring_from index) in
      let* flavor := substring_of variant (substring_to index) in
      pure (buildType, flavor)
  | None => pure (variant, Null)
  end.

(** ** isSeparateBuildEnabled *)

Definition isSeparateBuildEnabled (fs : files) (gradleFilePath : string) : M bool :=
  let* content := readFileSync fs gradleFilePath in
  match match_separateBuild content with
  | None => throw TypeError          (* [null[1]] *)
  | Some separateBuild => pure (String.eqb (toLowerCase separateBuild) "true")
  end.

(** ** getManifestFile *)

Definition getManifestFile (fs : files) (fuel : nat) (variant : value) : M string :=
  let gradleFilePath := "app/build.gradle" in
  let* ret := splitVariant fs fuel gradleFilePath variant in
  let buildType := ret.1 in
  let flavor := ret.2 in
  let paths := [Str "app/build/intermediates/manifests/full"] in
  let paths := if ToBoolean flavor then (paths ++ [flavor])%list else paths in
  let* separate := isSeparateBuildEnabled fs gradleFilePath in
  let paths := if separate then (paths ++ [Str "x86"])%list else paths in
  let paths := (paths ++ [buildType])%list in
  let paths := (paths ++ [Str "AndroidManifest.xml"])%list in
  pure (join "/" paths).

(** * Vocabulary of the statements *)

(** ** Observations *)

(** The outcome of a computation from store [h], without the store it
    leaves. *)
Definition result {A} (c : M A) (h : heap) : option (outcome A) :=
  match c h with
  | Some (o, _) => Some o
  | None => None
  end.

(** The elements of the array a computation returns. *)
Definition result_array (c : M loc) (h : heap) : option (outcome (list string)) :=
  match c h with
  | Some (Ret r, h') =>
      match h' !! r with
      | Some l => Some (Ret l)
      | None => Some (Throw TypeError)
      end
  | Some (Throw e, _) => Some (Throw e)
  | None => None
  end.

(** The first statement of [splitVariant] on its own: the base types read
    from the build description. *)
Definition buildTypes_of (fs : files) (fuel : nat) (gradleFilePath : string) : M loc :=
  let* defaults := alloc ["debug"; "release"] in
  findVariants fs fuel gradleFilePath "buildTypes" (Some defaults).

(** ** Outcomes without the store *)

(** What [isSeparateBuildEnabled] returns or throws; it does not touch the
    store. *)
Definition separateBuild_outcome (fs : files) (gradleFilePath : string) : outcome bool :=
  match fs !! gradleFilePath with
  | None => Throw ENOENT
  | Some content =>
      match match_separateBuild content with
      | None => Throw TypeError
      | Some separateBuild => Ret (String.eqb (toLowerCase separateBuild) "true")
      end
  end.

(** The path [getManifestFile] joins, from what its two callees return. *)
Definition manifest_path (ret : value * value) (separate : bool) : string :=
  join "/" ([Str "app/build/intermediates/manifests/full"]
            ++ (if ToBoolean ret.2 then [ret.2] else [])
            ++ (if separate then [Str "x86"] else [])
            ++ [ret.1; Str "AndroidManifest.xml"])%list.

(** ** Sample build descriptions and stores *)

(** A project whose build description is [s]. *)
Definition gradle (s : string) : files := {[ "app/build.gradle" := s ]}.

Definition LF : string := String (ascii_of_N 10) "".
Definition TAB : string := String (ascii_of_N 9) "".

(** A build description with a [release] block only and the flag false. *)
Definition gradle_release : files :=
  gradle ("android {" ++ LF ++ "  buildTypes {" ++ LF ++ "    release {" ++ LF
          ++ "      minifyEnabled false" ++ LF ++ "    }" ++ LF ++ "  }" ++ LF ++ "}" ++ LF
          ++ "def enableSeparateBuildPerCPUArchitecture = false" ++ LF).

(** No block, the flag true. *)
Definition gradle_separate_true : files :=
  gradle ("def enableSeparateBuildPerCPUArchitecture = true" ++ LF).

(** A block with one child. *)
Definition gradle_staging : files :=
  gradle ("buildTypes {" ++ LF ++ "  staging {" ++ LF ++ "  }" ++ LF ++ "}" ++ LF).

(** A block that is opened and not closed. *)
Definition unclosed : string := "android { buildTypes { debug {".

(** The store with the array ["debug"; "release"] at location 1. *)
Definition defaults_at_1 : heap := {[ 1%positive := ["debug"; "release"] ]}.

(** ** The separate-build assignment *)

Fixpoint all_chars (p : ascii -> bool) (s : string) : bool :=
  match s with
  | EmptyString => true
  | String c s' => p c && all_chars p s'
  end.

(** The text holds an assignment of the separate-build flag: the name, white
    space, an equals sign, white space and a word. *)
Definition has_assignment (content : string) : Prop :=
  exists pre ws1 ws2 w rest : string,
    content = (pre ++ separateBuildName ++ ws1 ++ "=" ++ ws2 ++ w ++ rest)%string
    /\ ws1 <> "" /\ all_chars is_space ws1 = true
    /\ ws2 <> "" /\ all_chars is_space ws2 = true
    /\ w <> "" /\ all_chars is_word w = true.

(** ** The scan without the store *)

(** [if (variants.indexOf(t) === -1) variants.push(t)] on the elements. *)
Definition add_new (l : list string) (t : string) : list string :=
  if index_of t l 0 =? -1 then (l ++ [t])%list else l.

(** The identifiers the scan captures, in the order of the text and with
    their repetitions, and the position at which the loop exits. *)
Fixpoint children (fuel : nat) (content : string) (counter pos : Z)
  : option (list string * Z) :=
  match fuel with
  | O => None
  | S fuel' =>
      if 0 <? counter then
        if strict_eq (charAt content pos) "{" then
          if counter + 1 =? 2 then
            match findPreviousTerm fuel' content (pos - 1) with
            | None => None
            | Some t =>
                match children fuel' content (counter + 1) (pos + 1) with
                | Some (ts, p) => Some (t :: ts, p)
                | None => None
                end
            end
          else children fuel' content (counter + 1) (pos + 1)
        else if strict_eq (charAt content pos) "}" then
          children fuel' content (counter - 1) (pos + 1)
        else children fuel' content counter (pos + 1)
      else Some ([], pos)
  end.

(** The identifiers [findVariants] captures in a text. *)
Definition captured (fuel : nat) (variantType content : string) : option (list string) :=
  match exec_header variantType content with
  | None => Some []
  | Some lastIndex =>
      match children fuel content 1 (lastIndex + 1) with
      | Some (ts, _) => Some ts
      | None => None
      end
  end.

(** The defaults of two calls are the same: no defaults twice, or arrays
    with the same elements. *)
Definition same_defaults (h : heap) (d : option loc) (h0 : heap) (d0 : option loc)
  : Prop :=
  match d, d0 with
  | Some r, Some r0 => exists l, h !! r = Some l /\ h0 !! r0 = Some l
  | None, None => True
  | _, _ => False
  end.

(** ** Nesting *)

(** What a character adds to the nesting counter. *)
Definition delta (c : ascii) : Z :=
  if Ascii.eqb c "{" then 1 else if Ascii.eqb c "}" then -1 else 0.

(** Opening minus closing delimiters of [s]. *)
Fixpoint depth (s : string) : Z :=
  match s with
  | EmptyString => 0
  | String c s' => delta c + depth s'
  end.

(** The counter, at [counter] before the text [s], is positive after every
    prefix of [s]: it never returns to 0. *)
Definition stays_open (counter : Z) (s : string) : Prop :=
  forall k : nat, 0 < counter + depth (take_chars k s).

(** ** The characters behind a position *)

Definition is_blank (c : ascii) : bool := Ascii.eqb c " ".

Fixpoint take_while (p : ascii -> bool) (l : list ascii) : list ascii :=
  match l with
  | c :: l' => if p c then c :: take_while p l' else []
  | [] => []
  end.

Fixpoint drop_while (p : ascii -> bool) (l : list ascii) : list ascii :=
  match l with
  | c :: l' => if p c then drop_while p l' else l
  | [] => []
  end.

(** [B] lists the characters of [content] at [e], [e - 1], ... down to its
    first character. *)
Definition views (content : string) (e : Z) (B : list ascii) : Prop :=
  forall k : nat, charAt content (e - Z.of_nat k) = B !! k.

(** The characters of [content] before position [pos], nearest first. *)
Definition behind (content : string) (pos : Z) : list ascii :=
  reverse (list_ascii_of_string (take_chars (Z.to_nat pos) content)).

(** The word before position [pos]: skip the spaces backward, then take the
    longest run of word characters. *)
Definition word_behind (content : string) (pos : Z) : string :=
  string_of_list_ascii
    (reverse (take_while is_word (drop_while is_blank (behind content pos)))).

(** * The caller of the resolver *)

(** ** The lazy patterns: the package and the activity of the manifest *)

(** The double quote. *)
Definition DQ : string := String (ascii_of_N 34) "".

(** The dot of a pattern: every character but a line terminator (below 256,
    line feed and carriage return). *)
Definition is_dot (c : ascii) : bool :=
  negb ((N_of_ascii c =? 10)%N || (N_of_ascii c =? 13)%N).

(** [.+?] followed by the rest [k] of a pattern, where [k] has one way to
    match: the shortest run of at least one character after which [k]
    matches.  Returns the length of the run and what [k] returns. *)
Fixpoint lazy_dots {A : Type} (k : string -> option A) (s : string) (n : nat)
  : option (nat * A) :=
  match s with
  | EmptyString => None
  | String c s' =>
      if is_dot c then
        match k s' with
        | Some a => Some (S n, a)
        | None => lazy_dots k s' (S n)
        end
      else None
  end.

(** [/package="(.+?)"/], anchored: the text of group 1. *)
Definition package_at (s : string) : option string :=
  match literal (fun c => c) ("package=" ++ DQ) s with
  | None => None
  | Some rest =>
      match lazy_dots (literal (fun c => c) DQ) rest 0 with
      | Some (n, _) => Some (take_chars n rest)
      | None => None
      end
  end.

(** [content.match(/package="(.+?)"/)]: group 1 of the leftmost match. *)
Definition match_package (content : string) : option string :=
  match search package_at content 0 with
  | Some (_, g) => Some g
  | None => None
  end.

(** The pattern of [findActivityName] after its [.+?].  The source writes
    [\.] inside a template literal, which is a plain [.] in the pattern: any
    character, then the class name, then the closing quote. *)
Definition activity_tail (activityClass s : string) : option string :=
  match s with
  | EmptyString => None
  | String c s' =>
      if is_dot c then
        match literal (fun c => c) activityClass s' with
        | Some s'' => literal (fun c => c) DQ s''
        | None => None
        end
      else None
  end.

(** [new RegExp(`android:name="(.+?\.${activityClass})"`)], anchored: the text
    of group 1.  [activityClass] is spliced into the pattern source; it is
    modelled as literal text, which is what the splice denotes for a name
    without pattern metacharacters (the source passes ['MainActivity']). *)
Definition activity_at (activityClass s : string) : option string :=
  match literal (fun c => c) ("android:name=" ++ DQ) s with
  | None => None
  | Some rest =>
      match lazy_dots (activity_tail activityClass) rest 0 with
      | Some (n, _) => Some (take_chars (n + 1 + String.length activityClass) rest)
      | None => None
      end
  end.

Definition findActivityName (content activityClass : string) : outcome string :=
  match search (activity_at activityClass) content 0 with
  | Some (_, g) => Ret g
  | None => Throw TypeError          (* [null[1]] *)
  end.

(** ** buildAndRun *)

(** The parsed command line; [root] is a string after [args.root || '']. *)
Record args : Type := {
  args_root : string;
  args_variant : value;
  args_flavor : value;
  args_install_debug : value
}.

(** What [buildAndRun] reads of its process, and what the external
    collaborators answer: whether [process.chdir] or the gradle run throws,
    and what [adb.getDevices()] returns ([None] for a falsy value). *)
Record process : Type := {
  platform : string;
  ANDROID_HOME : value;
  chdir_throws : option error;
  gradle_throws : bool;
  getDevices : outcome (option (list string))
}.

Inductive style : Type := red | bold | yellow.

(** What [buildAndRun] does to the outside, in order. *)
Inductive event : Type :=
| chdir (directory : string)
| console_log (st : style) (message : string)
| console_warn (st : style) (message : string)
| execFileSync (file : string) (arguments : list string)
| spawnSync (command : string) (arguments : list string)
| reject.

Definition msg_flavor_deprecated : string :=
  "--flavor has been deprecated. Use --variant instead".

Definition msg_building (cmd : string) (gradleArgs : list string) : string :=
  "Building and installing the app on the device (cd android && "
  ++ cmd ++ " " ++ String.concat " " gradleArgs ++ "...".

Definition msg_could_not_install : string :=
  "Could not install the app on the device, read the error above for details." ++ LF
  ++ "Make sure you have an Android emulator running or a device connected and have" ++ LF
  ++ "set up your Android development environment:" ++ LF
  ++ "https://facebook.github.io/react-native/docs/android-setup.html".

Definition msg_adb_failed : string :=
  "adb invocation failed. Do you have adb in your PATH?".

Definition msg_starting_on (device adbPath : string) (adbArgs : list string) : string :=
  "Starting the app on " ++ device ++ " (" ++ adbPath ++ " "
  ++ String.concat " " adbArgs ++ ")...".

Definition msg_starting (adbPath : string) (fallbackAdbArgs : list string) : string :=
  "Starting the app (" ++ adbPath ++ " " ++ String.concat " " fallbackAdbArgs ++ "...".

(** [process.env.ANDROID_HOME ? process.env.ANDROID_HOME + '/platform-tools/adb' : 'adb'] *)
Definition adbPath_of (proc : process) : string :=
  if ToBoolean (ANDROID_HOME proc)
  then ToString (ANDROID_HOME proc) ++ "/platform-tools/adb"
  else "adb".

(** The body of [devices.forEach]. *)
Definition start_on (adbPath packageName activityName device : string) : list event :=
  let adbArgs := [ "-s"; device; "shell"; "am"; "start"; "-n";
                   packageName ++ "/" ++ activityName ] in
  [ console_log bold (msg_starting_on device adbPath adbArgs);
    spawnSync adbPath adbArgs ].

(** The fallback when no device is listed. *)
Definition start_fallback (adbPath packageName activityName : string) : list event :=
  let fallbackAdbArgs := [ "shell"; "am"; "start"; "-n";
                           packageName ++ "/" ++ activityName ] in
  [ console_log bold (msg_starting adbPath fallbackAdbArgs);
    spawnSync adbPath fallbackAdbArgs ].

(** The body of the second [try] of [buildAndRun]: what it does, or what it
    throws before it did anything. *)
Definition launch (proc : process) (fs : files) (fuel : nat) (a : args)
  : option (outcome (list event)) :=
  let activityClass := "MainActivity" in
  match result (getManifestFile fs fuel (args_variant a)) ∅ with
  | None => None
  | Some (Throw e) => Some (Throw e)
  | Some (Ret manifestFile) =>
      match fs !! manifestFile with
      | None => Some (Throw ENOENT)
      | Some content =>
          match match_package content with
          | None => Some (Throw TypeError)          (* [null[1]] *)
          | Some packageName =>
              match findActivityName content activityClass with
              | Throw e => Some (Throw e)
              | Ret activityName =>
                  let adbPath := adbPath_of proc in
                  match getDevices proc with
                  | Throw e => Some (Throw e)
                  | Ret (Some (device :: devices)) =>
                      Some (Ret (flat_map (start_on adbPath packageName activityName)
                                   (device :: devices)))
                  | Ret _ =>
                      Some (Ret (start_fallback adbPath packageName activityName))
                  end
              end
          end
      end
  end.

Section BuildAndRun.

(** [String.prototype.toUpperCase] and [path.join] are parameters: the upper
    case of a character below 256 can lie above 255, and [path.join]
    normalises its result by the rules of the platform. *)
Variable toUpperCase : string -> string.
Variable path_join : string -> string -> string.

(** [s[0].toUpperCase() + s.slice(1)] for a string that is not empty. *)
Definition capitalize (s : string) : string :=
  toUpperCase (take_chars 1 s) ++ drop_chars 1 s.

(** The gradle arguments, and the warning their computation prints. *)
Definition gradleArgs_of (a : args) : list event * list string :=
  let task :=
    if ToBoolean (args_variant a) then
      ([], ["install" ++ capitalize (ToString (args_variant a))])
    else if ToBoolean (args_flavor a) then
      ([console_warn yellow msg_flavor_deprecated],
       ["install" ++ capitalize (ToString (args_flavor a))])
    else ([], ["installDebug"]) in
  (task.1,
   if ToBoolean (args_install_debug a)
   then (task.2 ++ [ToString (args_install_debug a)])%list
   else task.2).

(** The result is [Throw] for the one exception that leaves the function, of
    [process.chdir]; every other exception is caught. *)
Definition buildAndRun (proc : process) (fs : files) (fuel : nat) (a : args)
  : option (outcome (list event)) :=
  match chdir_throws proc with
  | Some e => Some (Throw e)
  | None =>
      let cmd := if String.prefix "win" (platform proc)
                 then "gradlew.bat" else "./gradlew" in
      let gradleArgs := gradleArgs_of a in
      let build :=
        ([chdir (path_join (args_root a) "android")] ++ gradleArgs.1
         ++ [console_log bold (msg_building cmd gradleArgs.2);
             execFileSync cmd gradleArgs.2])%list in
      if gradle_throws proc then
        Some (Ret (build ++ [console_log red msg_could_not_install; reject])%list)
      else
        match launch proc fs fuel a with
        | None => None
        | Some (Throw _) =>
            Some (Ret (build ++ [console_log red msg_adb_failed; reject])%list)
        | Some (Ret started) => Some (Ret (build ++ started)%list)
        end
  end.

End BuildAndRun.

(** ** Vocabulary of the further properties *)

(** An element of the array [word] of [findPreviousTerm]: a word character
    or [undefined]. *)
Definition word_or_undefined (o : option ascii) : Prop :=
  match o with
  | Some c => is_word c = true
  | None => True
  end.

(** A string of word characters, possibly empty. *)
Definition word_only (t : string) : Prop := all_chars is_word t = true.

(** An assignment of the separate-build flag stands at the head of [s]. *)
Definition assignment_at (s : string) : Prop :=
  exists ws1 ws2 w rest : string,
    s = (separateBuildName ++ ws1 ++ "=" ++ ws2 ++ w ++ rest)%string
    /\ ws1 <> "" /\ all_chars is_space ws1 = true
    /\ ws2 <> "" /\ all_chars is_space ws2 = true
    /\ w <> "" /\ all_chars is_word w = true.

(** The text [s] is empty or starts with a character that is no word
    character: a word before it ends there. *)
Definition word_ends (s : string) : Prop := span_len is_word s = 0%nat.

(** Equality of two texts under the case folding of the [i] flag. *)
Fixpoint ci_eq (a b : string) : bool :=
  match a, b with
  | EmptyString, EmptyString => true
  | String x a', String y b' =>
      Ascii.eqb (Canonicalize x) (Canonicalize y) && ci_eq a' b'
  | _, _ => false
  end.

(** The text holds a header of the block [variantType]: the name in any
    case, white space and an opening delimiter. *)
Definition has_header (variantType content : string) : Prop :=
  exists pre nm ws rest : string,
    content = (pre ++ nm ++ ws ++ "{" ++ rest)%string
    /\ ci_eq variantType nm = true
    /\ ws <> "" /\ all_chars is_space ws = true.

(** A text without the bar of an alternation. *)
Definition bar_free (t : string) : Prop :=
  all_chars (fun c => negb (Ascii.eqb c "|")) t = true.

(** The build type [t] stands at index [j] of [s], in any case. *)
Definition occurs_at (t s : string) (j : nat) : Prop :=
  is_Some (literal Canonicalize t (drop_chars j s)).

(** The manifest holds a package attribute: [package=], a quote, at least
    one character, none of them a line terminator, and a closing quote. *)
Definition has_package (content : string) : Prop :=
  exists pre g rest : string,
    content = (pre ++ ("package=" ++ DQ) ++ g ++ DQ ++ rest)%string
    /\ g <> "" /\ all_chars is_dot g = true.

(** The manifest holds a name attribute for the class: [android:name=], a
    quote, at least one character, one more character, the class name and a
    closing quote, with no line terminator before the class name. *)
Definition has_activity (activityClass content : string) : Prop :=
  exists pre p x rest,
    content = (pre ++ ("android:name=" ++ DQ) ++ p
               ++ String x (activityClass ++ DQ ++ rest))%string
    /\ p <> "" /\ all_chars is_dot p = true /\ is_dot x = true.

(** The processes [buildAndRun] starts through [spawnSync], in order. *)
Fixpoint spawned (evs : list event) : list (string * list string) :=
  match evs with
  | [] => []
  | spawnSync command arguments :: evs' => (command, arguments) :: spawned evs'
  | _ :: evs' => spawned evs'
  end.

(** A child header with a tab between its name and its delimiter. *)
Definition gradle_tab : files :=
  gradle ("buildTypes {" ++ LF ++ "  staging" ++ TAB ++ "{" ++ LF ++ "  }" ++ LF ++ "}" ++ LF
          ++ "def enableSeparateBuildPerCPUArchitecture = false" ++ LF).

(** The fixed ends of every manifest path. *)
Definition manifest_base : string := "app/build/intermediates/manifests/full/".
Definition manifest_name : string := "/AndroidManifest.xml".

(** A manifest with a package and a main activity. *)
Definition manifest_sample : string :=
  "<manifest package=" ++ DQ ++ "com.app" ++ DQ ++ ">" ++ LF
  ++ "<activity android:name=" ++ DQ ++ "com.app.MainActivity" ++ DQ ++ "/>" ++ LF.

(** What [buildAndRun] does up to and with the gradle run. *)
Definition build_events (toUpperCase : string -> string)
    (path_join : string -> string -> string) (proc : process) (a : args) : list event :=
  let cmd := if String.prefix "win" (platform proc) then "gradlew.bat" else "./gradlew" in
  ([chdir (path_join (args_root a) "android")] ++ (gradleArgs_of toUpperCase a).1
   ++ [console_log bold (msg_building cmd (gradleArgs_of toUpperCase a).2);
       execFileSync cmd (gradleArgs_of toUpperCase a).2])%list.

(** The command line of [adb] for a device, and without a device. *)
Definition adb_start_on (proc : process) (pkg act device : string) : string * list string :=
  (adbPath_of proc,
   ["-s"; device; "shell"; "am"; "start"; "-n"; (pkg ++ "/" ++ act)%string]).

Definition adb_start (proc : process) (pkg act : string) : string * list string :=
  (adbPath_of proc, ["shell"; "am"; "start"; "-n"; (pkg ++ "/" ++ act)%string]).

(** A process on Linux with two devices, and the arguments of
    [run-android --variant demoRelease] and of [run-android]. *)
Definition process_sample : process :=
  {| platform := "linux"; ANDROID_HOME := Str "/sdk"; chdir_throws := None;
     gradle_throws := false; getDevices := Ret (Some ["emulator-5554"; "0a388e93"]) |}.

Definition args_demoRelease : args :=
  {| args_root := ""; args_variant := Str "demoRelease"; args_flavor := Undefined;
     args_install_debug := Undefined |}.

Definition args_none : args :=
  {| args_root := ""; args_variant := Undefined; args_flavor := Undefined;
     args_install_debug := Undefined |}.

(** The project of [gradle_release] after a build of the variant
    [demoRelease]. *)
Definition project_built : files :=
  <[ "app/build/intermediates/manifests/full/demo/Release/AndroidManifest.xml"
     := manifest_sample ]> gradle_release.

(** The project of [gradle_release] after a build of the variant [debug]. *)
Definition project_built_debug : files :=
  <[ "app/build/intermediates/manifests/full/debug/AndroidManifest.xml"
     := manifest_sample ]> gradle_release.

(** Builtins for the samples: the upper case of an ASCII letter, and
    [path.join] of an empty root with a relative path. *)
Definition upper_ascii (s : string) : string :=
  match s with
  | String c s' => String (Canonicalize c) s'
  | EmptyString => EmptyString
  end.

Definition join_empty_root (a b : string) : string := b.

(** * Properties *)

(** ** The code on small inputs *)

Example findPreviousTerm_word :
  findPreviousTerm 20 "  release  {" 10 = Some "release".
Proof. vm_compute. reflexivity. Qed.

Example findVariants_staging :
  result_array (findVariants (gradle ("buildTypes {" ++ LF ++ " staging {" ++ LF ++ " }" ++ LF ++ "}"))
               100 "app/build.gradle" "buildTypes" None) ∅
  = Some (Ret ["staging"]).
Proof. vm_compute. reflexivity. Qed.

(** ** The variant splitter and the manifest path *)

Lemma splitVariant_after_buildTypes fs fuel path variant h :
  splitVariant fs fuel path variant h =
  (let* buildTypes := buildTypes_of fs fuel path in
   let* src := join_bar buildTypes in
   match exec_alternation src (ToString variant) with
   | Some index =>
       let* buildType := substring_of variant (substring_from index) in
       let* flavor := substring_of variant (substring_to index) in
       pure (buildType, flavor)
   | None => pure (variant, Null)
   end) h.
Proof.
  unfold splitVariant, buildTypes_of, bind.
  destruct (alloc _ h) as [[[d|e] h1]|]; try reflexivity.
Qed.

(** What [splitVariant] returns once the base types are known to be the
    defaults. *)
Lemma splitVariant_defaults fs fuel path variant h :
  result_array (buildTypes_of fs fuel path) h = Some (Ret ["debug"; "release"]) ->
  result (splitVariant fs fuel path variant) h =
  match exec_alternation "debug|release" (ToString variant) with
  | Some index =>
      result (let* buildType := substring_of variant (substring_from index) in
              let* flavor := substring_of variant (substring_to index) in
              pure (buildType, flavor)) h
  | None => Some (Ret (variant, Null))
  end.
Proof.
  unfold result_array, result. rewrite splitVariant_after_buildTypes.
  unfold bind at 1.
  destruct (buildTypes_of fs fuel path h) as [[[r|e] h1]|]; try discriminate.
  destruct (h1 !! r) as [l|] eqn:Hl; try discriminate.
  intros [= ->].
  unfold bind at 1, join_bar at 1. rewrite Hl.
  change (String.concat "|" ["debug"; "release"]) with "debug|release".
  destruct (exec_alternation "debug|release" (ToString variant)); [|reflexivity].
  destruct variant; reflexivity.
Qed.

(** C7. For a build description that yields the default base types
    ["debug"; "release"], [splitVariant] on "demoRelease" returns the base
    type "Release", the text from the leftmost case-insensitive match at
    index 4 on, and the flavor "demo", the text before it. *)
Theorem splitVariant_demoRelease fs fuel path h :
  result_array (buildTypes_of fs fuel path) h = Some (Ret ["debug"; "release"]) ->
  exec_alternation "debug|release" "demoRelease" = Some 4%nat /\
  result (splitVariant fs fuel path (Str "demoRelease")) h
  = Some (Ret (Str "Release", Str "demo")).
Proof.
  intros H. split; [vm_compute; reflexivity|].
  rewrite (splitVariant_defaults _ _ _ _ _ H). vm_compute. reflexivity.
Qed.

Lemma splitVariant_demoRelease_witness :
  result_array (buildTypes_of gradle_release 200 "app/build.gradle") ∅
    = Some (Ret ["debug"; "release"]) /\
  exec_alternation "debug|release" "demoRelease" = Some 4%nat /\
  result (splitVariant gradle_release 200 "app/build.gradle" (Str "demoRelease")) ∅
  = Some (Ret (Str "Release", Str "demo")).
Proof.
  assert (H : result_array (buildTypes_of gradle_release 200 "app/build.gradle") ∅
              = Some (Ret ["debug"; "release"])) by (vm_compute; reflexivity).
  split; [exact H|].
  exact (splitVariant_demoRelease gradle_release 200 "app/build.gradle" ∅ H).
Defined.

Lemma isSeparateBuildEnabled_outcome fs path h :
  isSeparateBuildEnabled fs path h = Some (separateBuild_outcome fs path, h).
Proof.
  unfold isSeparateBuildEnabled, separateBuild_outcome, bind, readFileSync.
  destruct (fs !! path) as [content|]; [|reflexivity].
  cbn. destruct (match_separateBuild content); reflexivity.
Qed.

Lemma getManifestFile_result fs fuel variant h :
  result (getManifestFile fs fuel variant) h =
  match result (splitVariant fs fuel "app/build.gradle" variant) h with
  | Some (Ret ret) =>
      match separateBuild_outcome fs "app/build.gradle" with
      | Ret separate => Some (Ret (manifest_path ret separate))
      | Throw e => Some (Throw e)
      end
  | Some (Throw e) => Some (Throw e)
  | None => None
  end.
Proof.
  unfold result, getManifestFile. unfold bind at 1.
  destruct (splitVariant fs fuel "app/build.gradle" variant h) as [[[ret|e] h1]|];
    try reflexivity.
  unfold bind. rewrite isSeparateBuildEnabled_outcome.
  destruct (separateBuild_outcome fs "app/build.gradle") as [separate|e]; [|reflexivity].
  unfold manifest_path, pure.
  destruct (ToBoolean ret.2), separate; reflexivity.
Qed.

(** With the variant absent, the defaults as base types and the flag true,
    the path has an empty base-type segment, whatever else the build
    description holds. *)
Lemma getManifestFile_variant_absent_any fs fuel h content :
  fs !! "app/build.gradle" = Some content ->
  match_separateBuild content = Some "true" ->
  result_array (buildTypes_of fs fuel "app/build.gradle") h = Some (Ret ["debug"; "release"]) ->
  result (getManifestFile fs fuel Undefined) h
  = Some (Ret "app/build/intermediates/manifests/full/x86//AndroidManifest.xml").
Proof.
  intros Hfile Hflag Htypes.
  rewrite getManifestFile_result.
  rewrite (splitVariant_defaults _ _ _ _ _ Htypes).
  unfold separateBuild_outcome. rewrite Hfile, Hflag.
  vm_compute. reflexivity.
Qed.

(** C1. With the variant absent and the separate-build flag true, the path
    [getManifestFile] returns has an empty base-type segment: [splitVariant]
    hands the absent variant back as the base type and [join] prints
    [undefined] as the empty string.  The claimed path, with the segment
    "debug", is not returned. *)
Theorem getManifestFile_variant_absent :
  result_array (buildTypes_of gradle_separate_true 100 "app/build.gradle") ∅
    = Some (Ret ["debug"; "release"]) /\
  result (splitVariant gradle_separate_true 100 "app/build.gradle" Undefined) ∅
    = Some (Ret (Undefined, Null)) /\
  result (getManifestFile gradle_separate_true 100 Undefined) ∅
    = Some (Ret "app/build/intermediates/manifests/full/x86//AndroidManifest.xml") /\
  result (getManifestFile gradle_separate_true 100 Undefined) ∅
    <> Some (Ret "app/build/intermediates/manifests/full/x86/debug/AndroidManifest.xml").
Proof.
  repeat split; try (vm_compute; reflexivity).
  vm_compute. discriminate.
Qed.

(** The claimed path of C2, with a lower-case base-type segment, is not the
    one returned. *)
Lemma getManifestFile_demoRelease_lowercase_refuted :
  result (getManifestFile gradle_release 200 (Str "demoRelease")) ∅
  <> Some (Ret "app/build/intermediates/manifests/full/demo/release/AndroidManifest.xml").
Proof. vm_compute. discriminate. Qed.

(** C2, amended. For the variant "demoRelease", a build description whose
    separate-build flag is textually false and whose base types are the
    defaults, [getManifestFile] returns
    "app/build/intermediates/manifests/full/demo/Release/AndroidManifest.xml":
    the flavor segment "demo" followed by the base-type segment "Release",
    spelled as in the variant. *)
Theorem getManifestFile_demoRelease fs fuel h content :
  fs !! "app/build.gradle" = Some content ->
  match_separateBuild content = Some "false" ->
  result_array (buildTypes_of fs fuel "app/build.gradle") h = Some (Ret ["debug"; "release"]) ->
  result (getManifestFile fs fuel (Str "demoRelease")) h
  = Some (Ret "app/build/intermediates/manifests/full/demo/Release/AndroidManifest.xml").
Proof.
  intros Hfile Hflag Htypes.
  rewrite getManifestFile_result.
  rewrite (splitVariant_defaults _ _ _ _ _ Htypes).
  unfold separateBuild_outcome. rewrite Hfile, Hflag.
  vm_compute. reflexivity.
Qed.

Lemma getManifestFile_demoRelease_witness :
  result (getManifestFile gradle_release 200 (Str "demoRelease")) ∅
  = Some (Ret "app/build/intermediates/manifests/full/demo/Release/AndroidManifest.xml").
Proof.
  apply (getManifestFile_demoRelease gradle_release 200 ∅
           ("android {" ++ LF ++ "  buildTypes {" ++ LF ++ "    release {" ++ LF
            ++ "      minifyEnabled false" ++ LF ++ "    }" ++ LF ++ "  }" ++ LF ++ "}" ++ LF
            ++ "def enableSeparateBuildPerCPUArchitecture = false" ++ LF)).
  - vm_compute. reflexivity.
  - vm_compute. reflexivity.
  - vm_compute. reflexivity.
Defined.

(** ** A build description without the separate-build assignment *)

Lemma append_cons c (a b : string) : (String c a ++ b = String c (a ++ b))%string.
Proof. reflexivity. Qed.

Lemma append_nil (b : string) : ("" ++ b = b)%string.
Proof. reflexivity. Qed.

Lemma take_drop_chars n s : (take_chars n s ++ drop_chars n s)%string = s.
Proof.
  revert s. induction n as [|n IH]; intros [|c s]; simpl; try reflexivity.
  rewrite append_cons. f_equal. apply IH.
Qed.

Lemma span_len_all p s : all_chars p (take_chars (span_len p s) s) = true.
Proof.
  induction s as [|c s IH]; cbn; [reflexivity|].
  destruct (p c) eqn:Hc; cbn; [|reflexivity]. by rewrite Hc.
Qed.

Lemma take_chars_S_nonempty n s k : span_len is_word s = S k -> take_chars (S n) s <> "".
Proof. destruct s; cbn; [discriminate|]. intros _. discriminate. Qed.

Lemma literal_exact p s rest :
  literal (fun c => c) p s = Some rest -> s = (p ++ rest)%string.
Proof.
  revert s. induction p as [|a p IH]; intros s; cbn.
  - by intros [= ->].
  - destruct s as [|b s]; [discriminate|].
    destruct (Ascii.eqb a b) eqn:Hab; [|discriminate].
    apply Ascii.eqb_eq in Hab as ->. intros H.
    by rewrite append_cons, (IH _ H).
Qed.

(** [search] finds its match at the head of a suffix. *)
Lemma search_Some {A} (m : string -> option A) s i j a :
  search m s i = Some (j, a) ->
  exists k, j = (i + k)%nat /\ (k <= String.length s)%nat /\ m (drop_chars k s) = Some a.
Proof.
  revert i. induction s as [|c s IH]; intros i; cbn.
  - destruct (m "") eqn:Hm; [|discriminate]. intros [= <- <-].
    exists 0%nat. cbn. repeat split; [lia|lia|done].
  - destruct (m (String c s)) eqn:Hm.
    + intros [= <- <-]. exists 0%nat. cbn. repeat split; [lia|lia|done].
    + intros H. destruct (IH _ H) as (k & -> & Hk & Hm').
      exists (S k). cbn. repeat split; [lia|lia|done].
Qed.

Lemma separateBuild_at_sound s g :
  separateBuild_at s = Some g ->
  exists ws1 ws2 rest : string,
    s = (separateBuildName ++ ws1 ++ "=" ++ ws2 ++ g ++ rest)%string
    /\ ws1 <> "" /\ all_chars is_space ws1 = true
    /\ ws2 <> "" /\ all_chars is_space ws2 = true
    /\ g <> "" /\ all_chars is_word g = true.
Proof.
  unfold separateBuild_at.
  destruct (literal _ separateBuildName s) as [rest|] eqn:Hlit; [|discriminate].
  apply literal_exact in Hlit as ->.
  destruct (span_len is_space rest) as [|w1] eqn:Hw1; [discriminate|].
  destruct (drop_chars (S w1) rest) as [|c rest1] eqn:Hd1; [discriminate|].
  destruct (Ascii.eqb c "=") eqn:Hc.
  2:{ intros H. exfalso. revert H Hc.
      destruct c as [[] [] [] [] [] [] [] []]; cbn; congruence. }
  apply Ascii.eqb_eq in Hc as ->.
  destruct (span_len is_space rest1) as [|w2] eqn:Hw2; [discriminate|].
  destruct (span_len is_word (drop_chars (S w2) rest1)) as [|k] eqn:Hk; [discriminate|].
  intros Hg.
  assert (g = take_chars (S k) (drop_chars (S w2) rest1)) as -> by congruence.
  clear Hg.
  exists (take_chars (S w1) rest), (take_chars (S w2) rest1),
         (drop_chars (S k) (drop_chars (S w2) rest1)).
  split.
  { f_equal. rewrite <- (take_drop_chars (S w1) rest) at 1. f_equal.
    rewrite Hd1. change ("=" ++ ?x)%string with (String "=" x). f_equal.
    rewrite <- (take_drop_chars (S w2) rest1) at 1. f_equal.
    by rewrite take_drop_chars. }
  split. { destruct rest; [discriminate Hw1|discriminate]. }
  split. { rewrite <- Hw1. apply span_len_all. }
  split. { destruct rest1; [discriminate Hw2|discriminate]. }
  split. { rewrite <- Hw2. apply span_len_all. }
  split. { destruct (drop_chars (S w2) rest1); [discriminate Hk|discriminate]. }
  rewrite <- Hk. apply span_len_all.
Qed.

Lemma append_assoc (a b c : string) : ((a ++ b) ++ c = a ++ b ++ c)%string.
Proof. induction a as [|x a IH]; [reflexivity|]. by rewrite !append_cons, IH. Qed.

Lemma match_separateBuild_sound content g :
  match_separateBuild content = Some g -> has_assignment content.
Proof.
  unfold match_separateBuild.
  destruct (search separateBuild_at content 0) as [[j g']|] eqn:Hs; [|discriminate].
  intros [= ->].
  apply search_Some in Hs as (k & _ & _ & Hat).
  apply separateBuild_at_sound in Hat as (ws1 & ws2 & rest & Heq & H).
  exists (take_chars k content), ws1, ws2, g, rest.
  split; [|exact H].
  rewrite <- Heq. symmetry. apply take_drop_chars.
Qed.

Lemma word_not_space c : is_word c = true -> is_space c = false.
Proof. destruct c as [[] [] [] [] [] [] [] []]; vm_compute; congruence. Qed.

Lemma literal_append fold p rest : literal fold p (p ++ rest) = Some rest.
Proof.
  induction p as [|a p IH]; [reflexivity|].
  rewrite append_cons. cbn. by rewrite Ascii.eqb_refl.
Qed.

(** A run of [p]-characters followed by a character outside [p]. *)
Lemma span_len_stop p a c rest :
  all_chars p a = true -> p c = false ->
  span_len p (a ++ String c rest) = String.length a.
Proof.
  intros Ha Hc. induction a as [|x a IH].
  - rewrite append_nil. cbn. by rewrite Hc.
  - cbn in Ha. apply andb_true_iff in Ha as [Hx Ha].
    rewrite append_cons. cbn. rewrite Hx. f_equal. by apply IH.
Qed.

Lemma span_len_ge p a rest :
  all_chars p a = true -> (String.length a <= span_len p (a ++ rest))%nat.
Proof.
  intros Ha. induction a as [|x a IH]; [cbn; lia|].
  cbn in Ha. apply andb_true_iff in Ha as [Hx Ha].
  rewrite append_cons. cbn. rewrite Hx. specialize (IH Ha). lia.
Qed.

Lemma drop_chars_append a b : drop_chars (String.length a) (a ++ b) = b.
Proof. induction a as [|x a IH]; [by destruct b|]. by rewrite append_cons. Qed.

Lemma separateBuild_at_complete (ws1 ws2 w rest : string) :
  ws1 <> "" -> all_chars is_space ws1 = true ->
  ws2 <> "" -> all_chars is_space ws2 = true ->
  w <> "" -> all_chars is_word w = true ->
  is_Some (separateBuild_at (separateBuildName ++ ws1 ++ "=" ++ ws2 ++ w ++ rest)).
Proof.
  intros N1 A1 N2 A2 Nw Aw.
  unfold separateBuild_at. rewrite literal_append.
  change ("=" ++ ?x)%string with (String "=" x).
  rewrite (span_len_stop is_space ws1 "=" _ A1 eq_refl).
  destruct (String.length ws1) as [|n1] eqn:L1; [by destruct ws1|].
  rewrite <- L1, drop_chars_append.
  destruct w as [|cw w]; [done|]. rewrite (append_cons cw).
  cbn in Aw. apply andb_true_iff in Aw as [Hcw Aw].
  rewrite (span_len_stop is_space ws2 cw _ A2 (word_not_space _ Hcw)).
  destruct (String.length ws2) as [|n2] eqn:L2; [by destruct ws2|].
  rewrite <- L2, drop_chars_append.
  cbn [span_len]. rewrite Hcw. eauto.
Qed.

(** [search] succeeds when its matcher succeeds at some suffix. *)
Lemma search_complete {A} (m : string -> option A) pre s i :
  is_Some (m s) -> is_Some (search m (pre ++ s) i).
Proof.
  intros Hm. revert i. induction pre as [|c pre IH]; intros i.
  - rewrite append_nil. destruct Hm as [a Hm]. destruct s; cbn; rewrite Hm; eauto.
  - rewrite append_cons. cbn. destruct (m (String c (pre ++ s))); eauto.
Qed.

Lemma match_separateBuild_complete content :
  has_assignment content -> is_Some (match_separateBuild content).
Proof.
  intros (pre & ws1 & ws2 & w & rest & -> & N1 & A1 & N2 & A2 & Nw & Aw).
  unfold match_separateBuild.
  destruct (search_complete separateBuild_at pre _ 0%nat
              (separateBuild_at_complete ws1 ws2 w rest N1 A1 N2 A2 Nw Aw))
    as [[j g] ->].
  eauto.
Qed.

(** The pattern of the source matches exactly the texts with an
    assignment. *)
Lemma match_separateBuild_None content :
  match_separateBuild content = None <-> ~ has_assignment content.
Proof.
  split.
  - intros Hm Ha. apply match_separateBuild_complete in Ha as [g Hg]. congruence.
  - intros Hn. destruct (match_separateBuild content) as [g|] eqn:Hm; [|reflexivity].
    destruct Hn. by eapply match_separateBuild_sound.
Qed.

(** A build description without the assignment, and what the resolver does
    with it: the fault of reading element 1 of the absent match. *)
Lemma getManifestFile_no_assignment_TypeError :
  result (isSeparateBuildEnabled (gradle "android { }") "app/build.gradle") ∅
    = Some (Throw TypeError) /\
  result (getManifestFile (gradle "android { }") 100 (Str "debug")) ∅
    = Some (Throw TypeError).
Proof. split; vm_compute; reflexivity. Qed.

(** C3, amended. For every build description without an assignment of the
    separate-build flag, [isSeparateBuildEnabled] throws the [TypeError] of
    reading element 1 of the absent match, and so does [getManifestFile]
    whenever its call of [splitVariant] returns. *)
Theorem isSeparateBuildEnabled_no_assignment fs content :
  fs !! "app/build.gradle" = Some content ->
  ~ has_assignment content ->
  (forall h, isSeparateBuildEnabled fs "app/build.gradle" h = Some (Throw TypeError, h)) /\
  (forall fuel variant h ret,
      result (splitVariant fs fuel "app/build.gradle" variant) h = Some (Ret ret) ->
      result (getManifestFile fs fuel variant) h = Some (Throw TypeError)).
Proof.
  intros Hfile Hnone.
  assert (Hout : separateBuild_outcome fs "app/build.gradle" = Throw TypeError).
  { unfold separateBuild_outcome. rewrite Hfile.
    destruct (match_separateBuild content) as [g|] eqn:Hm; [|reflexivity].
    destruct Hnone. by eapply match_separateBuild_sound. }
  split.
  - intros h. by rewrite isSeparateBuildEnabled_outcome, Hout.
  - intros fuel variant h ret Hsplit.
    by rewrite getManifestFile_result, Hsplit, Hout.
Qed.

Lemma isSeparateBuildEnabled_no_assignment_witness :
  isSeparateBuildEnabled (gradle "android { }") "app/build.gradle" ∅
    = Some (Throw TypeError, ∅) /\
  result (getManifestFile (gradle "android { }") 100 (Str "debug")) ∅
    = Some (Throw TypeError).
Proof.
  assert (Hfile : gradle "android { }" !! "app/build.gradle" = Some "android { }")
    by (vm_compute; reflexivity).
  assert (Hnone : ~ has_assignment "android { }")
    by (apply match_separateBuild_None; vm_compute; reflexivity).
  destruct (isSeparateBuildEnabled_no_assignment _ _ Hfile Hnone) as [H1 H2].
  split; [apply H1|].
  apply (H2 100%nat (Str "debug") ∅ (Str "debug", Str "")).
  vm_compute. reflexivity.
Defined.

(** ** The scan of [findVariants], without the store *)

Lemma index_of_range x l i :
  index_of x l i = -1 \/ i <= index_of x l i.
Proof.
  revert i. induction l as [|y l IH]; intros i; cbn; [by left|].
  destruct (String.eqb y x); [right; lia|].
  destruct (IH (i + 1)); [by left|right; lia].
Qed.

Lemma index_of_absent x l i :
  0 <= i -> index_of x l i = -1 <-> x ∉ l.
Proof.
  revert i. induction l as [|y l IH]; intros i Hi; cbn.
  - split; [intros _; apply not_elem_of_nil|done].
  - rewrite not_elem_of_cons. destruct (String.eqb y x) eqn:Hyx.
    + apply String.eqb_eq in Hyx as ->. split; [lia|intros []; done].
    + apply String.eqb_neq in Hyx. rewrite IH by lia.
      split; [intros Hx; split; [congruence|exact Hx]|intros [_ Hx]; exact Hx].
Qed.

Lemma add_new_elem l t : t ∈ l -> add_new l t = l.
Proof.
  intros Ht. unfold add_new.
  destruct (index_of t l 0 =? -1) eqn:Hi; [|reflexivity].
  apply Z.eqb_eq, index_of_absent in Hi; [done|lia].
Qed.

Lemma add_new_fresh l t : t ∉ l -> add_new l t = (l ++ [t])%list.
Proof.
  intros Ht. unfold add_new.
  apply (index_of_absent t l 0) in Ht; [|lia]. by rewrite Ht.
Qed.

(** The body of [if (counter === 2)] on an array. *)
Lemma record_term r t h l :
  h !! r = Some l ->
  (let* i := indexOf r t in if i =? -1 then push r t else pure tt) h
  = Some (Ret tt, <[r := add_new l t]> h).
Proof.
  intros Hl. unfold bind, indexOf, add_new. rewrite Hl.
  destruct (index_of t l 0 =? -1).
  - unfold push. by rewrite Hl.
  - unfold pure. by rewrite insert_id.
Qed.

(** The scan changes the array at [variants] and nothing else; what it
    appends is fixed by the text. *)
Lemma scan_children content r fuel : forall counter pos h l,
  h !! r = Some l ->
  scan fuel content r counter pos h =
  match children fuel content counter pos with
  | Some (ts, p) => Some (Ret p, <[r := foldl add_new l ts]> h)
  | None => None
  end.
Proof.
  induction fuel as [|fuel IH]; intros counter pos h l Hl; [reflexivity|].
  cbn [scan children].
  destruct (0 <? counter); [|by cbn; rewrite insert_id].
  unfold bind at 1.
  destruct (strict_eq (charAt content pos) "{").
  - unfold bind at 1. destruct (counter + 1 =? 2).
    + unfold bind at 1, lift.
      destruct (findPreviousTerm fuel content (pos - 1)) as [t|]; [|reflexivity].
      unfold pure at 1. rewrite (record_term r t h l Hl).
      unfold pure at 1.
      rewrite (IH _ _ _ (add_new l t)) by apply lookup_insert_eq.
      destruct (children fuel content (counter + 1) (pos + 1)) as [[ts p]|];
        [|reflexivity].
      by rewrite insert_insert_eq.
    + unfold pure at 1 2. by apply IH.
  - destruct (strict_eq (charAt content pos) "}"); unfold pure at 1; by apply IH.
Qed.

Lemma foldl_add_new_mono ts : forall l x, x ∈ l -> x ∈ foldl add_new l ts.
Proof.
  induction ts as [|t ts IH]; intros l x Hx; [exact Hx|].
  cbn. apply IH. unfold add_new.
  destruct (index_of t l 0 =? -1); [|exact Hx].
  apply elem_of_app. by left.
Qed.

Lemma add_new_self l t : t ∈ add_new l t.
Proof.
  unfold add_new. destruct (index_of t l 0 =? -1) eqn:Hi.
  - apply elem_of_app. right. apply list_elem_of_singleton. reflexivity.
  - destruct (decide (t ∈ l)) as [Hin|Hout]; [exact Hin|].
    apply (index_of_absent t l 0) in Hout; [|lia]. rewrite Hout in Hi. discriminate.
Qed.

Lemma foldl_add_new_elem ts : forall l t, t ∈ ts -> t ∈ foldl add_new l ts.
Proof.
  induction ts as [|u ts IH]; intros l t Ht; [by apply elem_of_nil in Ht|].
  cbn. apply elem_of_cons in Ht as [->|Ht].
  - apply foldl_add_new_mono, add_new_self.
  - by apply IH.
Qed.

Lemma foldl_add_new_fixed ts : forall l,
  (forall t, t ∈ ts -> t ∈ l) -> foldl add_new l ts = l.
Proof.
  induction ts as [|t ts IH]; intros l Hl; [reflexivity|].
  cbn. rewrite add_new_elem by (apply Hl; left).
  apply IH. intros u Hu. apply Hl. by right.
Qed.

Lemma foldl_add_new_idem l ts :
  foldl add_new (foldl add_new l ts) ts = foldl add_new l ts.
Proof. apply foldl_add_new_fixed. intros t. apply foldl_add_new_elem. Qed.

Lemma add_new_NoDup l t : NoDup l -> NoDup (add_new l t).
Proof.
  intros Hl. destruct (decide (t ∈ l)) as [Hin|Hout].
  - by rewrite add_new_elem.
  - rewrite add_new_fresh by done. apply NoDup_app. split; [exact Hl|]. split.
    + intros x Hx Hx'. apply list_elem_of_singleton in Hx'. by subst.
    + apply NoDup_singleton.
Qed.

Lemma foldl_add_new_NoDup ts : forall l, NoDup l -> NoDup (foldl add_new l ts).
Proof.
  induction ts as [|t ts IH]; intros l Hl; [exact Hl|].
  cbn. by apply IH, add_new_NoDup.
Qed.

(** The merged list is the seed followed by the captured identifiers that
    are not in the seed, each once. *)
Lemma foldl_add_new_app ts : forall l,
  exists news,
    foldl add_new l ts = (l ++ news)%list /\ NoDup news
    /\ forall x, x ∈ news <-> x ∈ ts /\ x ∉ l.
Proof.
  induction ts as [|t ts IH]; intros l.
  - exists []. rewrite app_nil_r. split; [reflexivity|]. split; [constructor|].
    intros x. split; [intros H; by apply elem_of_nil in H|intros [H _]; by apply elem_of_nil in H].
  - cbn. destruct (decide (t ∈ l)) as [Hin|Hout].
    + rewrite add_new_elem by done. destruct (IH l) as (news & Heq & Hnd & Hnews).
      exists news. split; [exact Heq|]. split; [exact Hnd|].
      intros x. rewrite Hnews, elem_of_cons. split; [tauto|].
      intros [[->|Hx] Hl]; [done|tauto].
    + rewrite add_new_fresh by done.
      destruct (IH (l ++ [t])%list) as (news & Heq & Hnd & Hnews).
      exists (t :: news). split; [by rewrite Heq, <- app_assoc|]. split.
      * apply NoDup_cons. split; [|exact Hnd].
        intros Ht. apply Hnews in Ht as [_ Ht]. apply Ht, elem_of_app. right. by left.
      * intros x. rewrite !elem_of_cons, Hnews, elem_of_app, list_elem_of_singleton.
        destruct (decide (x = t)) as [->|Hne]; [tauto|tauto].
Qed.

(** [findVariants] on an array of the store. *)
Lemma findVariants_array fs fuel path name r h l content :
  fs !! path = Some content -> h !! r = Some l ->
  findVariants fs fuel path name (Some r) h =
  match captured fuel name content with
  | Some ts => Some (Ret r, <[r := foldl add_new l ts]> h)
  | None => None
  end.
Proof.
  intros Hfile Hl. unfold findVariants, captured, readFileSync. rewrite Hfile.
  unfold bind at 1, pure at 1. unfold bind at 1, pure at 1.
  destruct (exec_header name content) as [lastIndex|].
  - unfold bind. rewrite (scan_children _ _ _ _ _ _ _ Hl).
    destruct (children fuel content 1 (lastIndex + 1)) as [[ts p]|]; reflexivity.
  - unfold pure. cbn. by rewrite insert_id.
Qed.

(** [findVariants] without defaults: the result is a new array. *)
Lemma findVariants_fresh fs fuel path name h content :
  fs !! path = Some content ->
  findVariants fs fuel path name None h =
  match captured fuel name content with
  | Some ts => Some (Ret (fresh (dom h)), <[fresh (dom h) := foldl add_new [] ts]> h)
  | None => None
  end.
Proof.
  intros Hfile. unfold findVariants, captured, readFileSync. rewrite Hfile.
  unfold bind at 1, pure at 1. unfold bind at 1, alloc.
  destruct (exec_header name content) as [lastIndex|].
  - unfold bind. rewrite (scan_children _ _ _ _ _ _ [])
      by apply lookup_insert_eq.
    destruct (children fuel content 1 (lastIndex + 1)) as [[ts p]|]; [|reflexivity].
    unfold pure. by rewrite insert_insert_eq.
  - reflexivity.
Qed.

(** A scan on a value that is no array changes nothing. *)
Lemma scan_dangling content r fuel : forall counter pos h o h',
  h !! r = None ->
  scan fuel content r counter pos h = Some (o, h') -> h' = h.
Proof.
  induction fuel as [|fuel IH]; intros counter pos h o h' Hr; [discriminate|].
  cbn [scan]. destruct (0 <? counter); [|by intros [= _ <-]].
  unfold bind at 1.
  destruct (strict_eq (charAt content pos) "{").
  - unfold bind at 1. destruct (counter + 1 =? 2).
    + unfold bind at 1, lift.
      destruct (findPreviousTerm fuel content (pos - 1)) as [t|]; [|discriminate].
      unfold pure at 1, bind at 1, indexOf. rewrite Hr. by intros [= _ <-].
    + unfold pure at 1 2. by apply IH.
  - destruct (strict_eq (charAt content pos) "}"); unfold pure at 1; by apply IH.
Qed.

Lemma findVariants_dangling fs fuel path name r h o h' :
  h !! r = None ->
  findVariants fs fuel path name (Some r) h = Some (o, h') -> h' = h.
Proof.
  intros Hr. unfold findVariants, readFileSync.
  destruct (fs !! path) as [content|]; [|by intros [= _ <-]].
  unfold bind at 1, pure at 1. unfold bind at 1, pure at 1.
  destruct (exec_header name content) as [lastIndex|]; [|by intros [= _ <-]].
  unfold bind.
  destruct (scan fuel content r 1 (lastIndex + 1) h) as [[[p|e] h1]|] eqn:Hs;
    [| |discriminate].
  - apply scan_dangling in Hs; [|exact Hr]. by intros [= _ <-].
  - apply scan_dangling in Hs; [|exact Hr]. by intros [= _ <-].
Qed.

Lemma findVariants_array_inv fs fuel path name r h l v h' :
  h !! r = Some l ->
  findVariants fs fuel path name (Some r) h = Some (Ret v, h') ->
  exists content ts,
    fs !! path = Some content /\ captured fuel name content = Some ts
    /\ v = r /\ h' = <[r := foldl add_new l ts]> h.
Proof.
  intros Hl Hrun. destruct (fs !! path) as [content|] eqn:Hfile.
  - rewrite (findVariants_array _ _ _ _ _ _ _ _ Hfile Hl) in Hrun.
    destruct (captured fuel name content) as [ts|] eqn:Hts; [|discriminate].
    injection Hrun as <- <-. by exists content, ts.
  - unfold findVariants, readFileSync in Hrun. rewrite Hfile in Hrun. discriminate.
Qed.

Lemma findVariants_fresh_inv fs fuel path name h v h' :
  findVariants fs fuel path name None h = Some (Ret v, h') ->
  exists content ts,
    fs !! path = Some content /\ captured fuel name content = Some ts
    /\ v = fresh (dom h) /\ h' = <[fresh (dom h) := foldl add_new [] ts]> h.
Proof.
  intros Hrun. destruct (fs !! path) as [content|] eqn:Hfile.
  - rewrite (findVariants_fresh _ _ _ _ _ _ Hfile) in Hrun.
    destruct (captured fuel name content) as [ts|] eqn:Hts; [|discriminate].
    injection Hrun as <- <-. by exists content, ts.
  - unfold findVariants, readFileSync in Hrun. rewrite Hfile in Hrun. discriminate.
Qed.

Lemma findVariants_returns_defaults fs fuel path name r h v h' :
  findVariants fs fuel path name (Some r) h = Some (Ret v, h') -> v = r.
Proof.
  unfold findVariants, readFileSync.
  destruct (fs !! path) as [content|]; [|discriminate].
  unfold bind at 1, pure at 1. unfold bind at 1, pure at 1.
  destruct (exec_header name content) as [lastIndex|]; [|by intros [= <- _]].
  unfold bind.
  destruct (scan fuel content r 1 (lastIndex + 1) h) as [[[p|e] h1]|];
    [|discriminate|discriminate].
  by intros [= <- _].
Qed.

(** ** The defaults array after a call *)

(** A call that leaves the caller's defaults array longer than it was. *)
Lemma findVariants_extends_defaults :
  findVariants gradle_staging 100 "app/build.gradle" "buildTypes" (Some 1%positive)
    defaults_at_1
  = Some (Ret 1%positive, {[ 1%positive := ["debug"; "release"; "staging"] ]})
  /\ defaults_at_1 !! 1%positive = Some ["debug"; "release"]
  /\ ({[ 1%positive := ["debug"; "release"; "staging"] ]} : heap) !! 1%positive
     <> defaults_at_1 !! 1%positive.
Proof.
  split; [vm_compute; reflexivity|]. split; [vm_compute; reflexivity|].
  vm_compute. discriminate.
Qed.

(** C6, amended. [findVariants] returns the very array it was given as
    defaults and changes no other array.  After the call that array holds the
    elements it held before, in their order, followed by the captured
    identifiers that were not among them, each once; the defaults are
    unchanged only when nothing new is captured. *)
Theorem findVariants_appends_to_defaults fs fuel path name r h l v h' :
  h !! r = Some l ->
  findVariants fs fuel path name (Some r) h = Some (Ret v, h') ->
  v = r /\
  exists content ts news,
    fs !! path = Some content /\ captured fuel name content = Some ts
    /\ h' = <[r := (l ++ news)%list]> h
    /\ NoDup news
    /\ (forall x, x ∈ news <-> x ∈ ts /\ x ∉ l)
    /\ (news = [] -> h' = h).
Proof.
  intros Hl Hrun.
  destruct (findVariants_array_inv _ _ _ _ _ _ _ _ _ Hl Hrun)
    as (content & ts & Hfile & Hts & -> & ->).
  split; [reflexivity|].
  destruct (foldl_add_new_app ts l) as (news & Heq & Hnd & Hnews).
  exists content, ts, news. rewrite Heq. repeat split; try done.
  - by apply Hnews.
  - by apply Hnews.
  - by apply Hnews.
  - intros ->. rewrite app_nil_r. by apply insert_id.
Qed.

Lemma findVariants_appends_to_defaults_witness :
  exists content ts news,
    gradle_staging !! "app/build.gradle" = Some content
    /\ captured 100 "buildTypes" content = Some ts
    /\ ({[ 1%positive := ["debug"; "release"; "staging"] ]} : heap)
       = <[1%positive := (["debug"; "release"] ++ news)%list]> defaults_at_1
    /\ NoDup news
    /\ (forall x, x ∈ news <-> x ∈ ts /\ x ∉ ["debug"; "release"])
    /\ (news = [] ->
        ({[ 1%positive := ["debug"; "release"; "staging"] ]} : heap) = defaults_at_1).
Proof.
  apply (findVariants_appends_to_defaults gradle_staging 100 "app/build.gradle"
           "buildTypes" 1%positive defaults_at_1 ["debug"; "release"] 1%positive).
  - vm_compute. reflexivity.
  - vm_compute. reflexivity.
Defined.

(** ** No repeated entries *)

(** C9. For every file content, block name and defaults list, the list
    [findVariants] returns has no two equal entries.  A defaults list is a
    variant list: it has no two equal entries itself, as the one
    [splitVariant] passes; the defaults can also be absent. *)
Theorem findVariants_NoDup fs fuel path name d h v h' :
  (forall r l, d = Some r -> h !! r = Some l -> NoDup l) ->
  findVariants fs fuel path name d h = Some (Ret v, h') ->
  forall l', h' !! v = Some l' -> NoDup l'.
Proof.
  intros Hd Hrun l' Hl'. destruct d as [r|].
  - destruct (h !! r) as [l|] eqn:Hl.
    + destruct (findVariants_array_inv _ _ _ _ _ _ _ _ _ Hl Hrun)
        as (content & ts & _ & _ & -> & ->).
      rewrite lookup_insert_eq in Hl'. injection Hl' as <-.
      apply foldl_add_new_NoDup. by apply (Hd r).
    + assert (h' = h) as -> by (by eapply findVariants_dangling).
      apply findVariants_returns_defaults in Hrun as ->. congruence.
  - destruct (findVariants_fresh_inv _ _ _ _ _ _ _ Hrun)
      as (content & ts & _ & _ & -> & ->).
    rewrite lookup_insert_eq in Hl'. injection Hl' as <-.
    apply foldl_add_new_NoDup. constructor.
Qed.

Lemma findVariants_NoDup_witness :
  NoDup ["debug"; "release"; "staging"].
Proof.
  apply (findVariants_NoDup gradle_staging 100 "app/build.gradle" "buildTypes"
           (Some 1%positive) defaults_at_1 1%positive
           ({[ 1%positive := ["debug"; "release"; "staging"] ]})).
  - intros r l [= <-]. vm_compute. intros [= <-].
    apply (bool_decide_unpack _). vm_compute. reflexivity.
  - vm_compute. reflexivity.
  - vm_compute. reflexivity.
Defined.

(** ** Running the extraction twice *)

(** C10. Running [findVariants] again, over the same file, block name and
    defaults, returns a list with the same elements in the same order as the
    first run.  This holds for a second run on the store the first run left,
    where the second run returns the same array and changes nothing, and for a
    run on any store whose defaults hold what the defaults of the first run
    held before it. *)
Theorem findVariants_idempotent fs fuel path name d h v1 h1 :
  findVariants fs fuel path name d h = Some (Ret v1, h1) ->
  (exists v2 h2,
      findVariants fs fuel path name d h1 = Some (Ret v2, h2)
      /\ h2 !! v2 = h1 !! v1
      /\ (is_Some d -> v2 = v1 /\ h2 = h1))
  /\ (forall h0 d0, same_defaults h d h0 d0 ->
       exists v0 h0',
         findVariants fs fuel path name d0 h0 = Some (Ret v0, h0')
         /\ h0' !! v0 = h1 !! v1).
Proof.
  intros Hrun. split.
  - destruct d as [r|].
    + destruct (h !! r) as [l|] eqn:Hl.
      * destruct (findVariants_array_inv _ _ _ _ _ _ _ _ _ Hl Hrun)
          as (content & ts & Hfile & Hts & -> & ->).
        exists r, (<[r := foldl add_new l ts]> h).
        rewrite (findVariants_array _ _ _ _ _ _ (foldl add_new l ts) _ Hfile)
          by apply lookup_insert_eq.
        rewrite Hts, foldl_add_new_idem, insert_insert_eq. done.
      * assert (h1 = h) as -> by (by eapply findVariants_dangling).
        exists v1, h. done.
    + destruct (findVariants_fresh_inv _ _ _ _ _ _ _ Hrun)
        as (content & ts & Hfile & Hts & -> & ->).
      eexists _, _. rewrite (findVariants_fresh _ _ _ _ _ _ Hfile), Hts.
      split; [reflexivity|]. split.
      * by rewrite !lookup_insert_eq.
      * by intros [? [=]].
  - intros h0 d0 Hsame. destruct d as [r|], d0 as [r0|]; try done.
    + destruct Hsame as (l & Hl & Hl0).
      destruct (findVariants_array_inv _ _ _ _ _ _ _ _ _ Hl Hrun)
        as (content & ts & Hfile & Hts & -> & ->).
      eexists _, _. rewrite (findVariants_array _ _ _ _ _ _ _ _ Hfile Hl0), Hts.
      split; [reflexivity|]. by rewrite !lookup_insert_eq.
    + destruct (findVariants_fresh_inv _ _ _ _ _ _ _ Hrun)
        as (content & ts & Hfile & Hts & -> & ->).
      eexists _, _. rewrite (findVariants_fresh _ _ _ _ _ _ Hfile), Hts.
      split; [reflexivity|]. by rewrite !lookup_insert_eq.
Qed.

Lemma findVariants_idempotent_witness :
  (exists v2 h2,
      findVariants gradle_staging 100 "app/build.gradle" "buildTypes" (Some 1%positive)
        ({[ 1%positive := ["debug"; "release"; "staging"] ]}) = Some (Ret v2, h2)
      /\ h2 !! v2
         = ({[ 1%positive := ["debug"; "release"; "staging"] ]} : heap) !! 1%positive
      /\ (is_Some (Some 1%positive) ->
          v2 = 1%positive /\ h2 = {[ 1%positive := ["debug"; "release"; "staging"] ]}))
  /\ (forall h0 d0, same_defaults defaults_at_1 (Some 1%positive) h0 d0 ->
       exists v0 h0',
         findVariants gradle_staging 100 "app/build.gradle" "buildTypes" d0 h0
         = Some (Ret v0, h0')
         /\ h0' !! v0
            = ({[ 1%positive := ["debug"; "release"; "staging"] ]} : heap) !! 1%positive).
Proof.
  apply (findVariants_idempotent gradle_staging 100 "app/build.gradle" "buildTypes"
           (Some 1%positive) defaults_at_1).
  vm_compute. reflexivity.
Defined.

(** ** A block that is not closed *)

Lemma get_drop_chars n : forall s,
  drop_chars n s =
  match String.get n s with
  | Some c => String c (drop_chars (S n) s)
  | None => EmptyString
  end.
Proof.
  induction n as [|n IH]; intros [|c s]; try reflexivity.
  cbn [drop_chars String.get]. rewrite IH. by destruct (String.get n s).
Qed.

Lemma drop_chars_end n : forall s, drop_chars n s = "" -> drop_chars (S n) s = "".
Proof.
  induction n as [|n IH]; intros [|c s]; try reflexivity; try discriminate.
  cbn [drop_chars]. intros H. by apply IH in H.
Qed.

(** The text from [pos] on, by its first character. *)
Lemma charAt_drop_chars content pos :
  0 <= pos ->
  drop_chars (Z.to_nat pos) content =
  match charAt content pos with
  | Some c => String c (drop_chars (Z.to_nat (pos + 1)) content)
  | None => EmptyString
  end.
Proof.
  intros Hpos. unfold charAt.
  destruct (pos <? 0) eqn:Hneg; [lia|].
  replace (Z.to_nat (pos + 1)) with (S (Z.to_nat pos)) by lia.
  apply get_drop_chars.
Qed.

Lemma strict_eq_true o c : strict_eq o c = true <-> o = Some c.
Proof.
  destruct o as [a|]; cbn; [|split; discriminate].
  rewrite Ascii.eqb_eq. split; congruence.
Qed.

Lemma stays_open_positive counter s : stays_open counter s -> 0 < counter.
Proof. intros H. specialize (H 0%nat). destruct s; cbn in H; lia. Qed.

Lemma stays_open_tail counter c s :
  stays_open counter (String c s) -> stays_open (counter + delta c) s.
Proof. intros H k. specialize (H (S k)). cbn in H. lia. Qed.

(** While the counter stays positive the loop does not exit, whatever the
    budget: past the end of the text every read is [undefined] and leaves the
    counter as it is. *)
Lemma children_stays_open content fuel : forall counter pos,
  0 <= pos ->
  stays_open counter (drop_chars (Z.to_nat pos) content) ->
  children fuel content counter pos = None.
Proof.
  induction fuel as [|fuel IH]; intros counter pos Hpos Hopen; [reflexivity|].
  cbn [children].
  pose proof (stays_open_positive _ _ Hopen) as Hc.
  destruct (0 <? counter) eqn:Hlt; [|lia].
  assert (Hnext : forall counter',
             (forall c, charAt content pos = Some c -> counter' = counter + delta c) ->
             (charAt content pos = None -> counter' = counter) ->
             children fuel content counter' (pos + 1) = None).
  { intros counter' Hsome Hnone. apply IH; [lia|].
    rewrite (charAt_drop_chars content pos Hpos) in Hopen.
    destruct (charAt content pos) as [c|] eqn:Hget.
    - rewrite (Hsome c eq_refl). by apply stays_open_tail.
    - rewrite (Hnone eq_refl).
      assert (Hend : drop_chars (Z.to_nat (pos + 1)) content = "").
      { replace (Z.to_nat (pos + 1)) with (S (Z.to_nat pos)) by lia.
        apply drop_chars_end.
        rewrite (charAt_drop_chars content pos Hpos), Hget. reflexivity. }
      by rewrite Hend. }
  destruct (strict_eq (charAt content pos) "{") eqn:Hopenb.
  - apply strict_eq_true in Hopenb.
    rewrite Hnext; [by repeat case_match| |]; rewrite Hopenb.
    + by intros c [= <-].
    + discriminate.
  - destruct (strict_eq (charAt content pos) "}") eqn:Hcloseb.
    + apply strict_eq_true in Hcloseb. apply Hnext; rewrite Hcloseb.
      * intros c [= <-]. reflexivity.
      * discriminate.
    + apply Hnext; [|done].
      intros c Hget. rewrite Hget in Hopenb, Hcloseb. cbn in Hopenb, Hcloseb.
      unfold delta. rewrite Hopenb, Hcloseb. lia.
Qed.

Lemma exec_header_nonneg name content lastIndex :
  exec_header name content = Some lastIndex -> 0 <= lastIndex.
Proof.
  unfold exec_header. destruct (search _ content 0) as [[i len]|]; [|discriminate].
  intros [= <-]. lia.
Qed.

Lemma captured_stays_open fuel name content lastIndex :
  exec_header name content = Some lastIndex ->
  stays_open 1 (drop_chars (Z.to_nat (lastIndex + 1)) content) ->
  captured fuel name content = None.
Proof.
  intros Hheader Hopen. unfold captured. rewrite Hheader.
  apply exec_header_nonneg in Hheader.
  rewrite children_stays_open; [reflexivity|lia|exact Hopen].
Qed.

Lemma unclosed_stays_open :
  exec_header "buildTypes" unclosed = Some 22
  /\ stays_open 1 (drop_chars (Z.to_nat (22 + 1)) unclosed).
Proof.
  split; [vm_compute; reflexivity|].
  intros k. do 8 (destruct k as [|k]; [vm_compute; reflexivity|]).
  vm_compute. reflexivity.
Qed.

(** A block that is opened and never closed: no budget is enough, and no
    error is signalled. *)
Lemma findVariants_unclosed_never_returns :
  ~ exists fuel o,
      findVariants (gradle unclosed) fuel "app/build.gradle" "buildTypes" None ∅ = Some o.
Proof.
  intros (fuel & o & Hrun).
  rewrite (findVariants_fresh _ _ _ _ _ unclosed) in Hrun by (vm_compute; reflexivity).
  destruct unclosed_stays_open as [Hheader Hopen].
  rewrite (captured_stays_open _ _ _ 22 Hheader Hopen) in Hrun. discriminate.
Qed.

(** The counter of the block and the counter of the loop.  The block is
    opened by the delimiter before [pos]; the loop starts counting at
    [pos + 1].  When the character at [pos] is no opening delimiter and the
    block is never closed from [pos] on, it is never closed from [pos + 1]
    on either. *)
Lemma stays_open_next content pos :
  0 <= pos ->
  stays_open 1 (drop_chars (Z.to_nat pos) content) ->
  charAt content pos <> Some "{"%char ->
  stays_open 1 (drop_chars (Z.to_nat (pos + 1)) content).
Proof.
  intros Hpos Hopen Hc.
  pose proof (charAt_drop_chars content pos Hpos) as Hdrop.
  destruct (charAt content pos) as [c|] eqn:Hget.
  - rewrite Hdrop in Hopen. apply stays_open_tail in Hopen.
    unfold delta in Hopen.
    destruct (Ascii.eqb c "{") eqn:E1; [apply Ascii.eqb_eq in E1; congruence|].
    destruct (Ascii.eqb c "}") eqn:E2.
    + apply stays_open_positive in Hopen. lia.
    + by replace (1 + 0) with 1 in Hopen by lia.
  - replace (Z.to_nat (pos + 1)) with (S (Z.to_nat pos)) by lia.
    rewrite (drop_chars_end _ _ Hdrop). intros k. by destruct k.
Qed.

(** An opening delimiter right after the header is not counted by the loop:
    the block of "buildTypes {{}" is never closed, and the call returns. *)
Lemma findVariants_skipped_opening_delimiter :
  exec_header "buildTypes" "buildTypes {{}" = Some 12
  /\ stays_open 1 (drop_chars (Z.to_nat 12) "buildTypes {{}")
  /\ charAt "buildTypes {{}" 12 = Some "{"%char
  /\ result_array
       (findVariants (gradle "buildTypes {{}") 100 "app/build.gradle" "buildTypes" None) ∅
     = Some (Ret []).
Proof.
  split; [vm_compute; reflexivity|]. split; [|split; vm_compute; reflexivity].
  intros k. do 3 (destruct k as [|k]; [vm_compute; reflexivity|]).
  vm_compute. reflexivity.
Qed.

(** C4, amended. For a block name made of word characters and every content
    with a matching block header whose brace region is not balanced before
    the end of the content (a counter that is 1 right after the opening
    delimiter of the header never returns to 0), [findVariants] signals no
    error.  When the character right after that opening delimiter is not
    itself an opening delimiter, the call does not terminate: no step budget
    lets it return, since every read past the end of the content yields
    [undefined] and leaves the counter as it is. *)
Theorem findVariants_unbalanced_diverges fs path name d h content lastIndex :
  word_only name ->
  fs !! path = Some content ->
  exec_header name content = Some lastIndex ->
  (forall r, d = Some r -> is_Some (h !! r)) ->
  stays_open 1 (drop_chars (Z.to_nat lastIndex) content) ->
  (forall pos, Z.of_nat (String.length content) <= pos -> charAt content pos = None)
  /\ (forall fuel e h', findVariants fs fuel path name d h <> Some (Throw e, h'))
  /\ (charAt content lastIndex <> Some "{"%char ->
      forall fuel, findVariants fs fuel path name d h = None).
Proof.
  intros _ Hfile Hheader Hd Hopen. split; [|split].
  - intros pos Hpos. unfold charAt. destruct (pos <? 0); [reflexivity|].
    assert (Hn : (String.length content <= Z.to_nat pos)%nat) by lia.
    revert Hn. generalize (Z.to_nat pos). clear.
    induction content as [|c s IH]; intros [|n] Hn; cbn in *; try reflexivity; try lia.
    apply IH. lia.
  - intros fuel e h'. destruct d as [r|].
    + destruct (Hd r eq_refl) as [l Hl].
      rewrite (findVariants_array _ _ _ _ _ _ _ _ Hfile Hl).
      by destruct (captured fuel name content).
    + rewrite (findVariants_fresh _ _ _ _ _ _ Hfile).
      by destruct (captured fuel name content).
  - intros Hc fuel.
    assert (Hloop : stays_open 1 (drop_chars (Z.to_nat (lastIndex + 1)) content)).
    { apply stays_open_next; [by eapply exec_header_nonneg|exact Hopen|exact Hc]. }
    destruct d as [r|].
    + destruct (Hd r eq_refl) as [l Hl].
      rewrite (findVariants_array _ _ _ _ _ _ _ _ Hfile Hl).
      by rewrite (captured_stays_open _ _ _ _ Hheader Hloop).
    + rewrite (findVariants_fresh _ _ _ _ _ _ Hfile).
      by rewrite (captured_stays_open _ _ _ _ Hheader Hloop).
Qed.

Lemma findVariants_unbalanced_diverges_witness :
  (forall pos, Z.of_nat (String.length unclosed) <= pos -> charAt unclosed pos = None)
  /\ (forall fuel e h',
        findVariants (gradle unclosed) fuel "app/build.gradle" "buildTypes" None ∅
        <> Some (Throw e, h'))
  /\ forall fuel,
      findVariants (gradle unclosed) fuel "app/build.gradle" "buildTypes" None ∅ = None.
Proof.
  destruct (findVariants_unbalanced_diverges (gradle unclosed) "app/build.gradle"
              "buildTypes" None ∅ unclosed 22) as (Hpast & Hquiet & Hloop).
  - vm_compute. reflexivity.
  - vm_compute. reflexivity.
  - vm_compute. reflexivity.
  - intros r [=].
  - intros k. do 9 (destruct k as [|k]; [vm_compute; reflexivity|]).
    vm_compute. reflexivity.
  - split; [exact Hpast|]. split; [exact Hquiet|].
    apply Hloop. vm_compute. discriminate.
Defined.

(** ** The first character of the block *)

(** C5. The scan starts one character after the position that follows the
    opening delimiter, so a delimiter at that position is not counted.  For
    the balanced text "buildTypes {}" the closing delimiter is the skipped
    character and the loop never exits; for "android { buildTypes {} }" the
    loop exits at 25, past the closing delimiter of the enclosing block at
    24, and not at 23, past the closing delimiter of the block at 22. *)
Theorem scan_skips_first_character :
  (exec_header "buildTypes" "buildTypes {}" = Some 12
   /\ charAt "buildTypes {}" 12 = Some "}"%char
   /\ depth "{}" = 0
   /\ forall fuel,
       findVariants (gradle "buildTypes {}") fuel "app/build.gradle" "buildTypes" None ∅
       = None)
  /\
  (exec_header "buildTypes" "android { buildTypes {} }" = Some 22
   /\ charAt "android { buildTypes {} }" 22 = Some "}"%char
   /\ charAt "android { buildTypes {} }" 24 = Some "}"%char
   /\ depth "{ buildTypes {} }" = 0
   /\ children 100 "android { buildTypes {} }" 1 (22 + 1) = Some ([], 25)
   /\ result (scan 100 "android { buildTypes {} }" 1%positive 1 (22 + 1))
         ({[ 1%positive := [] ]})
       = Some (Ret 25)).
Proof.
  split.
  - repeat split; try (vm_compute; reflexivity).
    intros fuel.
    rewrite (findVariants_fresh _ _ _ _ _ "buildTypes {}") by (vm_compute; reflexivity).
    rewrite (captured_stays_open _ _ _ 12); [reflexivity|vm_compute; reflexivity|].
    intros k. destruct k; vm_compute; reflexivity.
  - repeat split; vm_compute; reflexivity.
Qed.

(** ** The identifier before a child block *)

Lemma views_head content e B : views content e B -> charAt content e = B !! 0%nat.
Proof. intros H. rewrite <- (H 0%nat). f_equal. lia. Qed.

Lemma views_tail content e c B : views content e (c :: B) -> views content (e - 1) B.
Proof.
  intros H k. change (B !! k) with ((c :: B) !! S k).
  rewrite <- (H (S k)). f_equal. lia.
Qed.

Lemma skip_spaces_views content fuel : forall e B,
  views content e B ->
  (length (take_while is_blank B) < fuel)%nat ->
  skip_spaces fuel content e = Some (e - Z.of_nat (length (take_while is_blank B)))
  /\ views content (e - Z.of_nat (length (take_while is_blank B))) (drop_while is_blank B).
Proof.
  induction fuel as [|fuel IH]; intros e B HB Hfuel; [lia|].
  cbn [skip_spaces]. rewrite (views_head _ _ _ HB).
  destruct B as [|c B]; cbn.
  - rewrite Z.sub_0_r. done.
  - fold (is_blank c). destruct (is_blank c) eqn:Hc; cbn.
    + cbn in Hfuel. rewrite Hc in Hfuel. cbn in Hfuel.
      destruct (IH (e - 1) B (views_tail _ _ _ _ HB)) as [Hrun Hview]; [lia|].
      rewrite Hrun.
      replace (e - Z.of_nat (S (length (take_while is_blank B))))
        with (e - 1 - Z.of_nat (length (take_while is_blank B))) by lia.
      done.
    + rewrite Z.sub_0_r. done.
Qed.

Lemma collect_word_views content fuel : forall e B word,
  views content e B ->
  drop_while is_word B <> [] ->
  (length (take_while is_word B) < fuel)%nat ->
  collect_word fuel content e word
  = Some (word ++ map Some (take_while is_word B))%list.
Proof.
  induction fuel as [|fuel IH]; intros e B word HB Hstop Hfuel; [lia|].
  cbn [collect_word]. rewrite (views_head _ _ _ HB).
  destruct B as [|c B]; [done|]. cbn in *.
  destruct (is_word c) eqn:Hc; cbn in *.
  - rewrite (IH (e - 1) B _ (views_tail _ _ _ _ HB) Hstop) by lia.
    by rewrite <- app_assoc.
  - by rewrite app_nil_r.
Qed.

Lemma join_chars_Some w : join_chars (map Some w) = string_of_list_ascii w.
Proof. induction w as [|c w IH]; cbn; [reflexivity|by rewrite IH]. Qed.

Lemma reverse_map_Some (w : list ascii) : reverse (map Some w) = map Some (reverse w).
Proof.
  induction w as [|c w IH]; [reflexivity|].
  change (map Some (c :: w)) with (Some c :: map Some w).
  by rewrite !reverse_cons, IH, map_app.
Qed.

Lemma length_take_drop_while p B :
  (length (take_while p B) + length (drop_while p B) = length B)%nat.
Proof. induction B as [|c B IH]; cbn; [reflexivity|]. destruct (p c); cbn; lia. Qed.

(** [findPreviousTerm] through the characters behind its start: it drops
    the spaces, takes the word characters and stops at the first other
    character. *)
Lemma findPreviousTerm_views content fuel e B :
  views content e B ->
  drop_while is_word (drop_while is_blank B) <> [] ->
  (length B < fuel)%nat ->
  findPreviousTerm fuel content e
  = Some (string_of_list_ascii
            (reverse (take_while is_word (drop_while is_blank B)))).
Proof.
  intros HB Hstop Hfuel. unfold findPreviousTerm.
  pose proof (length_take_drop_while is_blank B) as Hlen1.
  pose proof (length_take_drop_while is_word (drop_while is_blank B)) as Hlen2.
  destruct (skip_spaces_views content fuel e B HB) as [-> Hview]; [lia|].
  rewrite (collect_word_views content fuel _ _ [] Hview Hstop) by lia.
  by rewrite app_nil_l, reverse_map_Some, join_chars_Some.
Qed.

Lemma get_lookup n : forall s, String.get n s = list_ascii_of_string s !! n.
Proof.
  induction n as [|n IH]; intros [|c s]; try reflexivity. apply IH.
Qed.

Lemma list_ascii_of_append (a b : string) :
  list_ascii_of_string (a ++ b) = (list_ascii_of_string a ++ list_ascii_of_string b)%list.
Proof.
  induction a as [|c a IH]; [reflexivity|]. rewrite append_cons. cbn. by rewrite IH.
Qed.

Lemma length_list_ascii s : length (list_ascii_of_string s) = String.length s.
Proof. induction s as [|c s IH]; cbn; [reflexivity|by rewrite IH]. Qed.

(** The characters behind the end of a prefix. *)
Lemma views_prefix (a b : string) :
  views (a ++ b) (Z.of_nat (String.length a) - 1) (reverse (list_ascii_of_string a)).
Proof.
  intros k. unfold charAt.
  destruct (decide (k < String.length a)%nat) as [Hk|Hk].
  - destruct (_ <? 0) eqn:Hneg; [lia|].
    rewrite get_lookup, list_ascii_of_append.
    replace (Z.to_nat (Z.of_nat (String.length a) - 1 - Z.of_nat k))
      with (String.length a - S k)%nat by lia.
    rewrite lookup_app_l by (rewrite length_list_ascii; lia).
    rewrite reverse_lookup by (rewrite length_list_ascii; lia).
    by rewrite length_list_ascii.
  - destruct (_ <? 0) eqn:Hneg; [|lia].
    symmetry. apply lookup_ge_None_2. rewrite length_reverse, length_list_ascii. lia.
Qed.

Lemma all_chars_Forall p s :
  all_chars p s = true -> Forall (fun c => p c = true) (list_ascii_of_string s).
Proof.
  induction s as [|c s IH]; cbn; [constructor|].
  intros [Hc Hs]%andb_true_iff. constructor; [exact Hc|by apply IH].
Qed.

Lemma take_while_app p a b :
  Forall (fun c => p c = true) a -> take_while p (a ++ b) = (a ++ take_while p b)%list.
Proof.
  induction 1 as [|c a Hc _ IH]; [reflexivity|]. cbn. by rewrite Hc, IH.
Qed.

Lemma drop_while_app p a b :
  Forall (fun c => p c = true) a -> drop_while p (a ++ b) = drop_while p b.
Proof.
  induction 1 as [|c a Hc _ IH]; [reflexivity|]. cbn. by rewrite Hc, IH.
Qed.

Lemma blank_not_word c : is_blank c = true -> is_word c = false.
Proof. unfold is_blank. intros ->%Ascii.eqb_eq. reflexivity. Qed.

(** The characters behind a child header [pre c name sp]: the spaces, the
    name and the character that ends it, nearest first. *)
Lemma child_header_behind pre c name sp :
  is_word c = false -> all_chars is_word name = true ->
  all_chars is_blank sp = true -> (name = "" -> c <> " "%char) ->
  let B := reverse (list_ascii_of_string (pre ++ String c (name ++ sp))) in
  take_while is_word (drop_while is_blank B) = reverse (list_ascii_of_string name)
  /\ drop_while is_word (drop_while is_blank B) <> [].
Proof.
  intros Hc Hname Hsp Hempty B. subst B.
  rewrite list_ascii_of_append. cbn [list_ascii_of_string].
  rewrite list_ascii_of_append, reverse_app, reverse_cons, reverse_app.
  rewrite <- !app_assoc.
  apply all_chars_Forall, Forall_reverse in Hname, Hsp.
  rewrite (drop_while_app is_blank _ _ Hsp).
  set (W := reverse (list_ascii_of_string name)) in *.
  assert (Hkeep : drop_while is_blank (W ++ [c] ++ reverse (list_ascii_of_string pre))
                  = (W ++ [c] ++ reverse (list_ascii_of_string pre))%list).
  { destruct W as [|x W'] eqn:HW; cbn.
    - assert (name = "") as Hn.
      { destruct name as [|y name]; [reflexivity|].
        apply (f_equal length) in HW. subst W.
        rewrite length_reverse in HW. discriminate. }
      unfold is_blank. destruct (Ascii.eqb c " ") eqn:Hcb; [|reflexivity].
      apply Ascii.eqb_eq in Hcb. by destruct (Hempty Hn).
    - apply Forall_cons in Hname as [Hx _].
      destruct (is_blank x) eqn:Hxb; [|reflexivity].
      apply blank_not_word in Hxb. congruence. }
  rewrite Hkeep.
  rewrite (take_while_app is_word _ _ Hname), (drop_while_app is_word _ _ Hname).
  cbn. rewrite Hc. split; [by rewrite app_nil_r|done].
Qed.

(** ** A block whose first character is no delimiter *)

Lemma literal_length fold p : forall s rest,
  literal fold p s = Some rest ->
  exists a, s = (a ++ rest)%string /\ String.length a = String.length p.
Proof.
  induction p as [|x p IH]; intros s rest; cbn.
  - intros [= ->]. by exists "".
  - destruct s as [|y s]; [discriminate|].
    destruct (Ascii.eqb (fold x) (fold y)); [|discriminate].
    intros (a & -> & Hlen)%IH. exists (String y a). cbn. by rewrite Hlen.
Qed.

Lemma get_append_r (a b : string) n :
  String.get (String.length a + n) (a ++ b) = String.get n b.
Proof. induction a as [|x a IH]; [reflexivity|]. rewrite append_cons. exact IH. Qed.

Lemma get_drop_chars_add k : forall s n,
  String.get n (drop_chars k s) = String.get (k + n) s.
Proof.
  induction k as [|k IH]; intros [|x s] n; try reflexivity.
  cbn [drop_chars]. rewrite IH. reflexivity.
Qed.

(** A header match ends with the opening delimiter. *)
Lemma header_at_brace name s len :
  header_at name s = Some len ->
  exists n, len = S n /\ String.get n s = Some "{"%char.
Proof.
  unfold header_at.
  destruct (literal Canonicalize name s) as [rest|] eqn:Hlit; [|discriminate].
  apply literal_length in Hlit as (a & -> & Hlen).
  destruct (0 <? span_len is_space rest)%nat; [|discriminate]. cbn [andb].
  destruct (strict_eq (String.get (span_len is_space rest) rest) "{") eqn:Hb;
    [|discriminate].
  apply strict_eq_true in Hb. intros [= <-].
  exists (String.length name + span_len is_space rest)%nat. split; [lia|].
  by rewrite <- Hlen, get_append_r.
Qed.

Lemma exec_header_brace name content lastIndex :
  exec_header name content = Some lastIndex ->
  charAt content (lastIndex - 1) = Some "{"%char.
Proof.
  unfold exec_header.
  destruct (search (header_at name) content 0) as [[i len]|] eqn:Hs; [|discriminate].
  intros [= <-].
  apply search_Some in Hs as (k & -> & _ & Hat).
  apply header_at_brace in Hat as (n & -> & Hget).
  unfold charAt. destruct (_ <? 0) eqn:Hneg; [apply Z.ltb_lt in Hneg; lia|].
  rewrite get_drop_chars_add in Hget.
  replace (Z.to_nat (Z.of_nat (0 + k + S n) - 1)) with (k + n)%nat by lia.
  exact Hget.
Qed.

Lemma drop_while_keeps p c : forall B k,
  B !! k = Some c -> p c = false -> exists k', drop_while p B !! k' = Some c.
Proof.
  induction B as [|x B IH]; intros k Hk Hc; [done|].
  cbn. destruct (p x) eqn:Hx.
  - destruct k as [|k]; [cbn in Hk; congruence|]. by apply (IH k).
  - by exists k.
Qed.

Lemma length_take_chars n : forall s,
  (n <= String.length s)%nat -> String.length (take_chars n s) = n.
Proof.
  induction n as [|n IH]; intros [|x s] Hn; cbn in *; try reflexivity; try lia.
  rewrite IH; lia.
Qed.

Lemma charAt_Some_lt content pos c :
  charAt content pos = Some c -> 0 <= pos < Z.of_nat (String.length content).
Proof.
  unfold charAt. destruct (pos <? 0) eqn:Hneg; [discriminate|].
  rewrite get_lookup. intros H%lookup_lt_Some.
  rewrite length_list_ascii in H. lia.
Qed.

Lemma views_behind content e :
  0 <= e < Z.of_nat (String.length content) ->
  views content e (behind content (e + 1)).
Proof.
  intros He. unfold behind.
  set (a := take_chars (Z.to_nat (e + 1)) content).
  set (b := drop_chars (Z.to_nat (e + 1)) content).
  assert (Hlen : String.length a = Z.to_nat (e + 1))
    by (apply length_take_chars; lia).
  pose proof (views_prefix a b) as H.
  replace (a ++ b)%string with content in H by (symmetry; apply take_drop_chars).
  replace (Z.of_nat (String.length a) - 1) with e in H by lia. exact H.
Qed.

Lemma length_behind content pos :
  (length (behind content pos) <= String.length content)%nat.
Proof.
  unfold behind. rewrite length_reverse, length_list_ascii.
  generalize (Z.to_nat pos). intros n. revert content.
  induction n as [|n IH]; intros [|x s]; cbn; try lia.
  specialize (IH s). lia.
Qed.

(** [findPreviousTerm] returns when some character behind its start is
    neither a space nor a word character, and what it returns is the word
    behind its start. *)
Lemma findPreviousTerm_behind content q c e fuel :
  charAt content q = Some c -> is_word c = false -> c <> " "%char ->
  q <= e < Z.of_nat (String.length content) ->
  (String.length content < fuel)%nat ->
  findPreviousTerm fuel content e = Some (word_behind content (e + 1)).
Proof.
  intros Hq Hw Hb He Hfuel.
  pose proof (charAt_Some_lt _ _ _ Hq) as Hq0.
  assert (Hview : views content e (behind content (e + 1)))
    by (apply views_behind; lia).
  assert (Hin : behind content (e + 1) !! Z.to_nat (e - q) = Some c).
  { rewrite <- (Hview (Z.to_nat (e - q))), <- Hq. f_equal. lia. }
  assert (Hcb : is_blank c = false).
  { unfold is_blank. destruct (Ascii.eqb c " ") eqn:Hcb; [|reflexivity].
    by apply Ascii.eqb_eq in Hcb. }
  destruct (drop_while_keeps is_blank c _ _ Hin Hcb) as [k1 Hk1].
  destruct (drop_while_keeps is_word c _ _ Hk1 Hw) as [k2 Hk2].
  rewrite (findPreviousTerm_views content fuel e _ Hview).
  - reflexivity.
  - intros Hnil. rewrite Hnil in Hk2. discriminate.
  - pose proof (length_behind content (e + 1)). lia.
Qed.

Lemma findPreviousTerm_stops content q c e fuel :
  charAt content q = Some c -> is_word c = false -> c <> " "%char ->
  q <= e < Z.of_nat (String.length content) ->
  (String.length content < fuel)%nat ->
  is_Some (findPreviousTerm fuel content e).
Proof.
  intros Hq Hw Hb He Hfuel.
  rewrite (findPreviousTerm_behind content q c e fuel Hq Hw Hb He Hfuel). eauto.
Qed.

Lemma append_length (a b : string) :
  String.length (a ++ b) = (String.length a + String.length b)%nat.
Proof. induction a as [|x a IH]; [reflexivity|]. rewrite append_cons. cbn. by rewrite IH. Qed.

Lemma length_drop_chars n : forall s,
  String.length (drop_chars n s) = (String.length s - n)%nat.
Proof. induction n as [|n IH]; intros [|x s]; cbn; try reflexivity; try lia. apply IH. Qed.

(** From a position inside a block, with the counter at [counter], the loop
    exits right after the closing delimiter that takes the counter to 0. *)
Lemma children_balanced content q c :
  charAt content q = Some c -> is_word c = false -> c <> " "%char ->
  forall inner fuel counter pos rest,
    q < pos ->
    drop_chars (Z.to_nat pos) content = (inner ++ String "}" rest)%string ->
    (forall k, (k <= String.length inner)%nat -> 0 < counter + depth (take_chars k inner)) ->
    counter + depth inner = 1 ->
    (String.length content + String.length inner + 1 < fuel)%nat ->
    exists ts,
      children fuel content counter pos
      = Some (ts, pos + Z.of_nat (String.length inner) + 1).
Proof.
  intros Hq Hw Hb.
  pose proof (charAt_Some_lt _ _ _ Hq) as Hq0.
  induction inner as [|x inner IH]; intros fuel counter pos rest Hpos Hdrop Hopen Hend Hfuel.
  - rewrite append_nil in Hdrop. cbn in Hend.
    rewrite charAt_drop_chars in Hdrop by lia.
    destruct (charAt content pos) as [y|] eqn:Hy; [|discriminate].
    injection Hdrop as -> Hrest.
    destruct fuel as [|[|fuel]]; [lia|lia|].
    cbn [children]. replace counter with 1 by lia. rewrite Hy. cbn.
    exists []. do 2 f_equal. lia.
  - rewrite append_cons in Hdrop.
    rewrite charAt_drop_chars in Hdrop by lia.
    destruct (charAt content pos) as [y|] eqn:Hy; [|discriminate].
    injection Hdrop as -> Hrest.
    pose proof (charAt_Some_lt _ _ _ Hy) as Hy0.
    destruct fuel as [|fuel]; [lia|].
    pose proof (Hopen 0%nat ltac:(lia)) as Hc. cbn in Hc.
    cbn [children]. destruct (0 <? counter) eqn:Hlt; [|lia].
    assert (Hnext : exists ts,
               children fuel content (counter + delta x) (pos + 1)
               = Some (ts, pos + Z.of_nat (String.length (String x inner)) + 1)).
    { destruct (IH fuel (counter + delta x) (pos + 1) rest) as [ts Hts].
      - lia.
      - exact Hrest.
      - intros k Hk. specialize (Hopen (S k)). cbn in Hopen. specialize (Hopen ltac:(lia)). lia.
      - cbn in Hend. lia.
      - cbn in Hfuel. lia.
      - exists ts. rewrite Hts. do 2 f_equal. cbn [String.length]. lia. }
    destruct Hnext as [ts Hts]. unfold delta in Hts. rewrite Hy. cbn [strict_eq].
    destruct (Ascii.eqb x "{") eqn:Hx1.
    + destruct (counter + 1 =? 2).
      * destruct (findPreviousTerm_stops content q c (pos - 1) fuel Hq Hw Hb) as [t Ht];
          [lia|cbn in Hfuel; lia|].
        rewrite Ht, Hts. eauto.
      * eauto.
    + destruct (Ascii.eqb x "}") eqn:Hx2.
      * replace (counter - 1) with (counter + -1) by lia. eauto.
      * rewrite Z.add_0_r in Hts. eauto.
Qed.

Lemma drop_chars_S n s x t :
  drop_chars n s = String x t -> drop_chars (S n) s = t.
Proof.
  intros H. rewrite (get_drop_chars n s) in H.
  destruct (String.get n s); [|discriminate]. congruence.
Qed.

(** When the character after the opening delimiter is no delimiter and the
    block is balanced, the loop exits right after the closing delimiter of the
    block, and [findVariants] returns. *)
Lemma findVariants_closed_block fs fuel path name content lastIndex x inner rest :
  fs !! path = Some content ->
  exec_header name content = Some lastIndex ->
  drop_chars (Z.to_nat lastIndex) content = String x (inner ++ String "}" rest) ->
  delta x = 0 ->
  (forall k, (k <= String.length inner)%nat -> 0 <= depth (take_chars k inner)) ->
  depth inner = 0 ->
  (2 * String.length content + 1 < fuel)%nat ->
  exists ts,
    children fuel content 1 (lastIndex + 1)
    = Some (ts, lastIndex + 1 + Z.of_nat (String.length inner) + 1)
    /\ forall r h l, h !! r = Some l ->
       findVariants fs fuel path name (Some r) h
       = Some (Ret r, <[r := foldl add_new l ts]> h).
Proof.
  intros Hfile Hheader Hdrop Hx Hopen Hend Hfuel.
  pose proof (exec_header_nonneg _ _ _ Hheader) as Hpos.
  pose proof (exec_header_brace _ _ _ Hheader) as Hbrace.
  assert (Hlen : (String.length inner < String.length content)%nat).
  { apply (f_equal String.length) in Hdrop.
    rewrite length_drop_chars in Hdrop. cbn in Hdrop.
    rewrite append_length in Hdrop. lia. }
  destruct (children_balanced content (lastIndex - 1) "{" Hbrace eq_refl ltac:(discriminate)
              inner fuel 1 (lastIndex + 1) rest) as [ts Hts].
  - lia.
  - replace (Z.to_nat (lastIndex + 1)) with (S (Z.to_nat lastIndex)) by lia.
    by apply drop_chars_S in Hdrop.
  - intros k Hk. specialize (Hopen k Hk). lia.
  - lia.
  - lia.
  - exists ts. split; [exact Hts|].
    intros r h l Hl. rewrite (findVariants_array _ _ _ _ _ _ _ _ Hfile Hl).
    unfold captured. by rewrite Hheader, Hts.
Qed.

Example findVariants_closed_block_staging :
  exists ts,
    children 100 ("buildTypes {" ++ LF ++ "  staging {" ++ LF ++ "  }" ++ LF ++ "}" ++ LF)
      1 (12 + 1)
    = Some (ts, 30).
Proof.
  destruct (findVariants_closed_block gradle_staging 100 "app/build.gradle" "buildTypes"
              ("buildTypes {" ++ LF ++ "  staging {" ++ LF ++ "  }" ++ LF ++ "}" ++ LF)
              12 (ascii_of_N 10) ("  staging {" ++ LF ++ "  }" ++ LF) LF)
    as (ts & Hts & _).
  - vm_compute. reflexivity.
  - vm_compute. reflexivity.
  - vm_compute. reflexivity.
  - vm_compute. reflexivity.
  - intros k _. do 18 (destruct k as [|k]; [vm_compute; discriminate|]).
    vm_compute. discriminate.
  - vm_compute. reflexivity.
  - vm_compute. lia.
  - exists ts. rewrite Hts. reflexivity.
Qed.

(** ** The identifier before a child block, in a run of [findVariants] *)

Lemma take_chars_append (a b : string) : take_chars (String.length a) (a ++ b) = a.
Proof.
  induction a as [|x a IH]; [by destruct b|].
  rewrite append_cons. cbn. by rewrite IH.
Qed.

(** The word behind a child header [pre c name sp] is [name]. *)
Lemma word_behind_child_header head pre c name sp rest :
  head = (pre ++ String c (name ++ sp))%string ->
  is_word c = false -> all_chars is_word name = true ->
  all_chars is_blank sp = true -> (name = "" -> c <> " "%char) ->
  word_behind (head ++ rest) (Z.of_nat (String.length head)) = name.
Proof.
  intros Hhead Hc Hname Hsp Hempty.
  unfold word_behind, behind. rewrite Nat2Z.id, take_chars_append, Hhead.
  destruct (child_header_behind pre c name sp Hc Hname Hsp Hempty) as [-> _].
  by rewrite reverse_involutive, string_of_list_ascii_of_string.
Qed.

(** A child header whose name is followed by a tab: the identifier captured
    is empty. *)
Lemma findPreviousTerm_tab_refuted :
  charAt ("buildTypes {" ++ LF ++ "  staging" ++ TAB ++ "{" ++ LF ++ "  }" ++ LF ++ "}") 23
    = Some "{"%char
  /\ findPreviousTerm 100
       ("buildTypes {" ++ LF ++ "  staging" ++ TAB ++ "{" ++ LF ++ "  }" ++ LF ++ "}")
       (23 - 1) = Some ""
  /\ result_array
       (findVariants
          (gradle ("buildTypes {" ++ LF ++ "  staging" ++ TAB ++ "{" ++ LF ++ "  }" ++ LF ++ "}"))
          100 "app/build.gradle" "buildTypes" None) ∅
     = Some (Ret [""]).
Proof. repeat split; vm_compute; reflexivity. Qed.

(** C8, amended. In a scan of [findVariants], at every position where the
    nesting counter goes from 1 to 2, the identifier captured and recorded is
    the word behind the opening delimiter: the space characters (U+0020)
    right before the delimiter are skipped backward, then the longest backward
    run of word characters is collected.  In particular a child header made
    of a name of word characters, ended on its left by another character, and
    followed by spaces only, yields that name. *)
Theorem scan_child_identifier content variantType lastIndex pos r fuel h l :
  exec_header variantType content = Some lastIndex ->
  lastIndex < pos ->
  charAt content pos = Some "{"%char ->
  h !! r = Some l ->
  (String.length content < fuel)%nat ->
  findPreviousTerm fuel content (pos - 1) = Some (word_behind content pos)
  /\ scan (S fuel) content r 1 pos h
     = scan fuel content r 2 (pos + 1) (<[r := add_new l (word_behind content pos)]> h)
  /\ forall head pre c name sp rest,
       content = (head ++ String "{" rest)%string ->
       pos = Z.of_nat (String.length head) ->
       head = (pre ++ String c (name ++ sp))%string ->
       is_word c = false ->
       all_chars is_word name = true ->
       all_chars is_blank sp = true ->
       (name = "" -> c <> " "%char) ->
       word_behind content pos = name.
Proof.
  intros Hheader Hpos Hbrace Hl Hfuel.
  pose proof (exec_header_nonneg _ _ _ Hheader) as Hnonneg.
  pose proof (exec_header_brace _ _ _ Hheader) as Hstop.
  pose proof (charAt_Some_lt _ _ _ Hbrace) as Hlt.
  assert (Hterm : findPreviousTerm fuel content (pos - 1)
                  = Some (word_behind content pos)).
  { rewrite (findPreviousTerm_behind content (lastIndex - 1) "{" (pos - 1) fuel
               Hstop eq_refl ltac:(discriminate)) by lia.
    do 2 f_equal. lia. }
  split; [exact Hterm|]. split.
  - cbn [scan]. change (0 <? 1) with true. cbv iota.
    rewrite Hbrace. cbn [strict_eq]. rewrite Ascii.eqb_refl.
    change (1 + 1 =? 2) with true. cbv iota.
    rewrite Hterm. unfold bind at 1. unfold bind at 1. unfold bind at 1.
    unfold lift, pure at 1. rewrite (record_term r _ h l Hl).
    reflexivity.
  - intros head pre c name sp rest -> -> Hhead Hc Hname Hsp Hempty.
    by apply (word_behind_child_header head pre c name sp).
Qed.

Lemma scan_child_identifier_witness :
  findPreviousTerm 100
    ("buildTypes {" ++ LF ++ "  staging  {" ++ LF ++ "  }" ++ LF ++ "}") (24 - 1)
  = Some "staging"
  /\ scan 101 ("buildTypes {" ++ LF ++ "  staging  {" ++ LF ++ "  }" ++ LF ++ "}")
       1%positive 1 24 defaults_at_1
     = scan 100 ("buildTypes {" ++ LF ++ "  staging  {" ++ LF ++ "  }" ++ LF ++ "}")
         1%positive 2 (24 + 1)
         (<[1%positive := ["debug"; "release"; "staging"]]> defaults_at_1).
Proof.
  destruct (scan_child_identifier
              ("buildTypes {" ++ LF ++ "  staging  {" ++ LF ++ "  }" ++ LF ++ "}")
              "buildTypes" 12 24 1%positive 100 defaults_at_1 ["debug"; "release"])
    as (Hterm & Hscan & Hname).
  - vm_compute. reflexivity.
  - lia.
  - vm_compute. reflexivity.
  - vm_compute. reflexivity.
  - vm_compute. lia.
  - assert (Hw : word_behind
                   ("buildTypes {" ++ LF ++ "  staging  {" ++ LF ++ "  }" ++ LF ++ "}") 24
                 = "staging").
    { apply (Hname ("buildTypes {" ++ LF ++ "  staging  ")
                   ("buildTypes {" ++ LF ++ " ") " "%char "staging" "  "
                   (LF ++ "  }" ++ LF ++ "}")).
      - vm_compute. reflexivity.
      - vm_compute. reflexivity.
      - vm_compute. reflexivity.
      - vm_compute. reflexivity.
      - vm_compute. reflexivity.
      - vm_compute. reflexivity.
      - intros [=]. }
    rewrite Hw in Hterm, Hscan. split; [exact Hterm|exact Hscan].
Defined.

(** * Further properties of the scanner *)

(** ** The captured identifiers are words *)

Lemma collect_word_words content fuel : forall e acc w,
  collect_word fuel content e acc = Some w ->
  Forall word_or_undefined acc -> Forall word_or_undefined w.
Proof.
  induction fuel as [|fuel IH]; intros e acc w Hrun Hacc; [discriminate|].
  cbn [collect_word] in Hrun.
  destruct (exec_word (charAt content e)) eqn:Hx.
  - apply IH in Hrun; [exact Hrun|].
    apply Forall_app. split; [exact Hacc|]. constructor; [|constructor].
    unfold exec_word in Hx. by destruct (charAt content e).
  - by injection Hrun as <-.
Qed.

Lemma join_chars_words l :
  Forall word_or_undefined l -> word_only (join_chars l).
Proof.
  unfold word_only. induction 1 as [|[c|] l Hc _ IH]; cbn; [reflexivity| |exact IH].
  cbn in Hc. by rewrite Hc, IH.
Qed.

(** Whatever [findPreviousTerm] returns is made of word characters. *)
Lemma findPreviousTerm_word_only fuel content e t :
  findPreviousTerm fuel content e = Some t -> word_only t.
Proof.
  unfold findPreviousTerm.
  destruct (skip_spaces fuel content e) as [e'|]; [|discriminate].
  destruct (collect_word fuel content e' []) as [w|] eqn:Hw; [|discriminate].
  intros [= <-]. apply join_chars_words, Forall_reverse.
  by apply (collect_word_words _ _ _ _ _ Hw).
Qed.

Lemma children_words content fuel : forall counter pos ts p,
  children fuel content counter pos = Some (ts, p) -> Forall word_only ts.
Proof.
  induction fuel as [|fuel IH]; intros counter pos ts p; [discriminate|].
  cbn [children]. destruct (0 <? counter); [|by intros [= <- _]].
  destruct (strict_eq (charAt content pos) "{").
  - destruct (counter + 1 =? 2); [|apply IH].
    destruct (findPreviousTerm fuel content (pos - 1)) as [t|] eqn:Ht; [|discriminate].
    destruct (children fuel content (counter + 1) (pos + 1)) as [[ts' p']|] eqn:Hc;
      [|discriminate].
    intros [= <- _]. constructor.
    + by eapply findPreviousTerm_word_only.
    + by eapply IH.
  - destruct (strict_eq (charAt content pos) "}"); apply IH.
Qed.

Lemma captured_words fuel name content ts :
  captured fuel name content = Some ts -> Forall word_only ts.
Proof.
  unfold captured. destruct (exec_header name content) as [lastIndex|].
  - destruct (children fuel content 1 (lastIndex + 1)) as [[ts' p]|] eqn:Hc;
      [|discriminate].
    intros [= <-]. by eapply children_words.
  - intros [= <-]. constructor.
Qed.

Lemma foldl_add_new_from ts : forall l x,
  x ∈ foldl add_new l ts -> x ∈ l \/ x ∈ ts.
Proof.
  intros l x Hx. destruct (foldl_add_new_app ts l) as (news & Heq & _ & Hnews).
  rewrite Heq in Hx. apply elem_of_app in Hx as [Hx|Hx]; [by left|].
  right. by apply Hnews.
Qed.

(** X1. Every entry of the list [findVariants] returns is an entry of the
    defaults it was given or a string of word characters (letters, digits,
    underscore), possibly the empty string. *)
Theorem findVariants_entries_are_words fs fuel path name d h v h' l' x :
  (forall r, d = Some r -> is_Some (h !! r)) ->
  findVariants fs fuel path name d h = Some (Ret v, h') ->
  h' !! v = Some l' ->
  x ∈ l' ->
  (exists r l, d = Some r /\ h !! r = Some l /\ x ∈ l) \/ word_only x.
Proof.
  intros Hd Hrun Hl' Hx. destruct d as [r|].
  - destruct (Hd r eq_refl) as [l Hl].
    destruct (findVariants_array_inv _ _ _ _ _ _ _ _ _ Hl Hrun)
      as (content & ts & _ & Hts & -> & ->).
    rewrite lookup_insert_eq in Hl'. injection Hl' as <-.
    apply foldl_add_new_from in Hx as [Hx|Hx]; [left; eauto|right].
    apply captured_words in Hts. rewrite Forall_forall in Hts. by apply Hts.
  - destruct (findVariants_fresh_inv _ _ _ _ _ _ _ Hrun)
      as (content & ts & _ & Hts & -> & ->).
    rewrite lookup_insert_eq in Hl'. injection Hl' as <-.
    apply foldl_add_new_from in Hx as [Hx|Hx]; [by apply elem_of_nil in Hx|right].
    apply captured_words in Hts. rewrite Forall_forall in Hts. by apply Hts.
Qed.

Lemma findVariants_entries_are_words_witness :
  (exists r l, Some 1%positive = Some r /\ defaults_at_1 !! r = Some l /\ "staging" ∈ l)
  \/ word_only "staging".
Proof.
  apply (findVariants_entries_are_words gradle_staging 100 "app/build.gradle"
           "buildTypes" (Some 1%positive) defaults_at_1 1%positive
           ({[ 1%positive := ["debug"; "release"; "staging"] ]})
           ["debug"; "release"; "staging"]).
  - intros r [= <-]. vm_compute. eauto.
  - vm_compute. reflexivity.
  - vm_compute. reflexivity.
  - apply (bool_decide_unpack _). vm_compute. reflexivity.
Defined.

(** ** [findPreviousTerm] at the start of the text *)

Lemma skip_spaces_stops content fuel : forall e B e',
  views content e B ->
  skip_spaces fuel content e = Some e' ->
  views content e' (drop_while is_blank B).
Proof.
  induction fuel as [|fuel IH]; intros e B e' HB; [discriminate|].
  cbn [skip_spaces]. rewrite (views_head _ _ _ HB).
  destruct B as [|c B]; cbn; [by intros [= <-]|].
  fold (is_blank c). destruct (is_blank c).
  - apply IH. by eapply views_tail.
  - by intros [= <-].
Qed.

Lemma views_nil_pred content e : views content e [] -> views content (e - 1) [].
Proof.
  intros H k. rewrite lookup_nil. specialize (H (S k)). rewrite lookup_nil in H.
  rewrite <- H. f_equal. lia.
Qed.

(** Only word characters down to the start of the text: the second loop reads
    [undefined] before the text and goes on for ever. *)
Lemma collect_word_runs_off content fuel : forall e B word,
  views content e B -> drop_while is_word B = [] ->
  collect_word fuel content e word = None.
Proof.
  induction fuel as [|fuel IH]; intros e B word HB Hall; [reflexivity|].
  cbn [collect_word]. rewrite (views_head _ _ _ HB).
  destruct B as [|c B]; cbn.
  - apply (IH _ []); [by apply views_nil_pred|reflexivity].
  - cbn in Hall. destruct (is_word c); [|discriminate].
    apply (IH _ B); [by eapply views_tail|exact Hall].
Qed.

Lemma drop_while_all p l : Forall (fun c => p c = true) l -> drop_while p l = [].
Proof. induction 1 as [|c l Hc _ IH]; [reflexivity|]. cbn. by rewrite Hc. Qed.

Lemma drop_while_blank_words l :
  Forall (fun c => is_word c = true) l -> drop_while is_blank l = l.
Proof.
  destruct 1 as [|c l Hc _]; [reflexivity|]. cbn.
  destruct (is_blank c) eqn:Hb; [|reflexivity].
  apply blank_not_word in Hb. congruence.
Qed.

(** X2. When everything from the start of the text up to [endPos] is a run of
    word characters followed by spaces (both possibly empty),
    [findPreviousTerm] never returns: no non-word character stops the backward
    collection, and before the text [content[endPos]] is [undefined], which
    the pattern [\w] accepts as the string "undefined". *)
Theorem findPreviousTerm_never_returns_at_start w sp rest fuel :
  word_only w ->
  all_chars is_blank sp = true ->
  findPreviousTerm fuel (w ++ sp ++ rest)
    (Z.of_nat (String.length (w ++ sp)) - 1) = None.
Proof.
  intros Hw Hsp. unfold findPreviousTerm.
  pose proof (views_prefix (w ++ sp) rest) as Hview.
  rewrite append_assoc in Hview.
  destruct (skip_spaces fuel (w ++ sp ++ rest) (Z.of_nat (String.length (w ++ sp)) - 1))
    as [e'|] eqn:Hskip; [|reflexivity].
  apply (skip_spaces_stops _ _ _ _ _ Hview) in Hskip.
  apply all_chars_Forall, Forall_reverse in Hw, Hsp.
  rewrite list_ascii_of_append, reverse_app in Hskip.
  rewrite (drop_while_app is_blank _ _ Hsp), (drop_while_blank_words _ Hw) in Hskip.
  by rewrite (collect_word_runs_off _ _ _ _ _ Hskip (drop_while_all _ _ Hw)).
Qed.

Lemma findPreviousTerm_never_returns_at_start_witness :
  findPreviousTerm 1000 ("release" ++ "  " ++ "{ }")
    (Z.of_nat (String.length ("release" ++ "  ")) - 1) = None.
Proof.
  apply (findPreviousTerm_never_returns_at_start "release" "  " "{ }" 1000).
  - vm_compute. reflexivity.
  - vm_compute. reflexivity.
Defined.

(** ** A closed block *)



(** ** Blocks inside a child block *)

(** While the counter is at 2 or more, nothing is captured. *)
Lemma children_nested content : forall inner n counter pos rest,
  0 <= pos ->
  drop_chars (Z.to_nat pos) content = (inner ++ rest)%string ->
  (forall k, (k < String.length inner)%nat -> 2 <= counter + depth (take_chars k inner)) ->
  children (String.length inner + n) content counter pos
  = children n content (counter + depth inner) (pos + Z.of_nat (String.length inner)).
Proof.
  induction inner as [|x inner IH]; intros n counter pos rest Hpos Hdrop Hdeep.
  - cbn. by rewrite Z.add_0_r, Z.add_0_r.
  - rewrite append_cons in Hdrop. rewrite charAt_drop_chars in Hdrop by lia.
    destruct (charAt content pos) as [y|] eqn:Hy; [|discriminate].
    injection Hdrop as -> Hrest.
    pose proof (Hdeep 0%nat ltac:(cbn; lia)) as Hc. cbn in Hc.
    assert (Hnext : children (String.length inner + n) content (counter + delta x) (pos + 1)
                    = children n content (counter + depth (String x inner))
                        (pos + Z.of_nat (String.length (String x inner)))).
    { rewrite (IH n (counter + delta x) (pos + 1) rest); [|lia|exact Hrest|].
      - cbn [depth String.length]. f_equal; lia.
      - intros k Hk. specialize (Hdeep (S k) ltac:(cbn; lia)). cbn in Hdeep. lia. }
    cbn [String.length Nat.add children].
    destruct (0 <? counter) eqn:Hlt; [|lia].
    rewrite Hy. cbn [strict_eq]. unfold delta in Hnext.
    destruct (Ascii.eqb x "{").
    + destruct (counter + 1 =? 2) eqn:H2; [lia|]. exact Hnext.
    + destruct (Ascii.eqb x "}").
      * replace (counter - 1) with (counter + -1) by lia. exact Hnext.
      * rewrite Z.add_0_r in Hnext. exact Hnext.
Qed.

(** X4. A child block adds its own identifier and nothing else, whatever
    blocks it holds: from the opening delimiter of a child block with a
    balanced body, the identifiers captured are the identifier before that
    delimiter followed by the identifiers captured after the closing delimiter
    of the child. *)
Theorem children_skip_nested_blocks content pos inner rest t n :
  0 <= pos ->
  charAt content pos = Some "{"%char ->
  drop_chars (Z.to_nat (pos + 1)) content = (inner ++ String "}" rest)%string ->
  (forall k, (k <= String.length inner)%nat -> 0 <= depth (take_chars k inner)) ->
  depth inner = 0 ->
  findPreviousTerm (String.length inner + S n) content (pos - 1) = Some t ->
  children (S (String.length inner + S n)) content 1 pos
  = match children n content 1 (pos + Z.of_nat (String.length inner) + 2) with
    | Some (ts, p) => Some (t :: ts, p)
    | None => None
    end.
Proof.
  intros Hpos Hbrace Hdrop Hopen Hend Hterm.
  cbn [children]. change (0 <? 1) with true. cbv iota.
  rewrite Hbrace. cbn [strict_eq]. rewrite Ascii.eqb_refl.
  change (1 + 1 =? 2) with true. cbv iota. rewrite Hterm.
  rewrite (children_nested content inner (S n) (1 + 1) (pos + 1) (String "}" rest));
    [|lia|exact Hdrop|].
  2:{ intros k Hk. specialize (Hopen k ltac:(lia)). lia. }
  rewrite Hend.
  assert (Hclose : charAt content (pos + 1 + Z.of_nat (String.length inner))
                   = Some "}"%char).
  { unfold charAt. destruct (_ <? 0) eqn:Hneg; [apply Z.ltb_lt in Hneg; lia|].
    replace (Z.to_nat (pos + 1 + Z.of_nat (String.length inner)))
      with (Z.to_nat (pos + 1) + String.length inner)%nat by lia.
    rewrite <- get_drop_chars_add, Hdrop.
    replace (String.length inner) with (String.length inner + 0)%nat at 1 by lia.
    by rewrite get_append_r. }
  cbn [children]. change (0 <? 1 + 1 + 0) with true. cbv iota.
  rewrite Hclose. cbn.
  replace (pos + 1 + Z.of_nat (String.length inner) + 1)
    with (pos + Z.of_nat (String.length inner) + 2) by lia.
  reflexivity.
Qed.

Lemma children_skip_nested_blocks_witness :
  children (S (String.length " signingConfig { } " + 11))
    ("buildTypes {" ++ LF ++ " release { signingConfig { } }" ++ LF ++ "}") 1 22
  = match children 10
            ("buildTypes {" ++ LF ++ " release { signingConfig { } }" ++ LF ++ "}") 1
            (22 + Z.of_nat (String.length " signingConfig { } ") + 2) with
    | Some (ts, p) => Some ("release" :: ts, p)
    | None => None
    end.
Proof.
  apply (children_skip_nested_blocks
           ("buildTypes {" ++ LF ++ " release { signingConfig { } }" ++ LF ++ "}")
           22 " signingConfig { } " (LF ++ "}") "release" 10).
  - lia.
  - vm_compute. reflexivity.
  - vm_compute. reflexivity.
  - intros k _. do 20 (destruct k as [|k]; [vm_compute; discriminate|]).
    vm_compute. discriminate.
  - vm_compute. reflexivity.
  - vm_compute. reflexivity.
Defined.

(** * Further properties of the variant splitter *)

Lemma search_first {A} (m : string -> option A) s : forall i j a,
  search m s i = Some (j, a) ->
  exists k, j = (i + k)%nat /\ (k <= String.length s)%nat
            /\ m (drop_chars k s) = Some a
            /\ forall k', (k' < k)%nat -> m (drop_chars k' s) = None.
Proof.
  induction s as [|c s IH]; intros i j a; cbn.
  - destruct (m "") eqn:Hm; [|discriminate]. intros [= <- <-].
    exists 0%nat. cbn. repeat split; [lia|lia|done|lia].
  - destruct (m (String c s)) eqn:Hm.
    + intros [= <- <-]. exists 0%nat. cbn. repeat split; [lia|lia|done|lia].
    + intros H. destruct (IH _ _ _ H) as (k & -> & Hk & Hm' & Hfirst).
      exists (S k). cbn. repeat split; [lia|lia|done|].
      intros [|k'] Hk'; [exact Hm|]. apply Hfirst. lia.
Qed.

Lemma search_None {A} (m : string -> option A) s : forall i,
  search m s i = None ->
  forall k, (k <= String.length s)%nat -> m (drop_chars k s) = None.
Proof.
  induction s as [|c s IH]; intros i; cbn.
  - destruct (m "") eqn:Hm; [discriminate|]. intros _ [|k] Hk; [exact Hm|lia].
  - destruct (m (String c s)) eqn:Hm; [discriminate|].
    intros H [|k] Hk; [exact Hm|]. cbn. apply (IH _ H). lia.
Qed.

Lemma append_nil_r (t : string) : (t ++ "")%string = t.
Proof. induction t as [|x t IH]; [reflexivity|]. by rewrite append_cons, IH. Qed.

Lemma split_bar_app t : forall acc src,
  bar_free t -> split_bar acc (t ++ src) = split_bar (acc ++ t) src.
Proof.
  unfold bar_free. induction t as [|c t IH]; intros acc src Ht.
  - by rewrite append_nil, append_nil_r.
  - cbn in Ht. apply andb_true_iff in Ht as [Hc Ht].
    rewrite append_cons. cbn [split_bar].
    destruct (Ascii.eqb c "|"); [discriminate|].
    rewrite (IH _ _ Ht), append_assoc. reflexivity.
Qed.

Lemma split_bar_concat l :
  l <> [] -> Forall bar_free l -> split_bar "" (String.concat "|" l) = l.
Proof.
  intros Hne Hall. induction Hall as [|t l Ht Hall IH]; [done|].
  destruct l as [|u l].
  - cbn [String.concat]. rewrite <- (append_nil_r t) at 1.
    by rewrite (split_bar_app t "" "" Ht), append_nil.
  - cbn [String.concat].
    rewrite (split_bar_app t "" _ Ht), append_nil.
    change ("|" ++ ?x)%string with (String "|" x). cbn [split_bar].
    rewrite Ascii.eqb_refl. f_equal. by apply IH.
Qed.

Lemma word_only_bar_free t : word_only t -> bar_free t.
Proof.
  unfold word_only, bar_free. induction t as [|c t IH]; [reflexivity|].
  cbn. intros [Hc Ht]%andb_true_iff. rewrite (IH Ht), andb_true_r.
  destruct (Ascii.eqb c "|") eqn:Hb; [|reflexivity].
  apply Ascii.eqb_eq in Hb. subst c. discriminate.
Qed.

(** The base types [splitVariant] reads are the defaults followed by words:
    none of them holds a bar. *)
Lemma buildTypes_of_bar_free fs fuel path h l :
  result_array (buildTypes_of fs fuel path) h = Some (Ret l) ->
  l <> [] /\ Forall bar_free l.
Proof.
  unfold result_array, buildTypes_of, bind, alloc.
  set (r := fresh (dom h)). set (h0 := <[r := ["debug"; "release"]]> h).
  destruct (findVariants fs fuel path "buildTypes" (Some r) h0)
    as [[[v|e] h1]|] eqn:Hrun; try discriminate.
  destruct (h1 !! v) as [l1|] eqn:Hl1; [|discriminate]. intros [= ->].
  assert (Hr : h0 !! r = Some ["debug"; "release"]) by apply lookup_insert_eq.
  destruct (findVariants_array_inv _ _ _ _ _ _ _ _ _ Hr Hrun)
    as (content & ts & _ & Hts & -> & ->).
  rewrite lookup_insert_eq in Hl1. injection Hl1 as <-.
  destruct (foldl_add_new_app ts ["debug"; "release"]) as (news & -> & _ & Hnews).
  split; [discriminate|].
  apply captured_words in Hts. rewrite Forall_forall in Hts.
  apply Forall_app. split.
  - repeat constructor.
  - apply Forall_forall. intros x Hx. apply word_only_bar_free, Hts. by apply Hnews.
Qed.

(** What [splitVariant] returns, from the base types it reads. *)
Lemma splitVariant_result fs fuel path variant h l :
  result_array (buildTypes_of fs fuel path) h = Some (Ret l) ->
  result (splitVariant fs fuel path variant) h =
  match search (alternation_at l) (ToString variant) 0 with
  | Some (index, _) =>
      match variant with
      | Str s => Some (Ret (Str (substring_from index s), Str (substring_to index s)))
      | _ => Some (Throw TypeError)
      end
  | None => Some (Ret (variant, Null))
  end.
Proof.
  intros Htypes.
  destruct (buildTypes_of_bar_free _ _ _ _ _ Htypes) as [Hne Hbar].
  revert Htypes.
  unfold result_array, result. rewrite splitVariant_after_buildTypes.
  unfold bind at 1.
  destruct (buildTypes_of fs fuel path h) as [[[r|e] h1]|]; try discriminate.
  destruct (h1 !! r) as [l1|] eqn:Hl; try discriminate.
  intros [= ->].
  unfold bind at 1, join_bar at 1. rewrite Hl.
  unfold exec_alternation. rewrite (split_bar_concat l Hne Hbar).
  destruct (search (alternation_at l) (ToString variant) 0) as [[index u]|];
    [|reflexivity].
  destruct variant; reflexivity.
Qed.

Lemma alternation_at_Some l s :
  alternation_at l s = Some tt <-> exists t, t ∈ l /\ is_Some (literal Canonicalize t s).
Proof.
  unfold alternation_at.
  destruct (existsb _ l) eqn:Hex.
  - apply existsb_exists in Hex as (t & Ht & Hlit).
    apply bool_decide_eq_true in Hlit. split; [|done].
    intros _. exists t. split; [by apply list_elem_of_In|done].
  - split; [discriminate|]. intros (t & Ht & Hlit).
    assert (existsb (fun a => bool_decide (is_Some (literal Canonicalize a s))) l = true)
      as Hyes.
    { apply existsb_exists. exists t. split; [by apply list_elem_of_In|].
      by apply bool_decide_eq_true. }
    congruence.
Qed.

Lemma alternation_at_None l s :
  alternation_at l s = None <-> forall t, t ∈ l -> ~ is_Some (literal Canonicalize t s).
Proof.
  split.
  - intros Hnone t Ht Hlit.
    assert (alternation_at l s = Some tt) by (apply alternation_at_Some; eauto).
    congruence.
  - intros Hall. destruct (alternation_at l s) as [[]|] eqn:Hat; [|reflexivity].
    apply alternation_at_Some in Hat as (t & Ht & Hlit). by destruct (Hall t Ht).
Qed.

(** X5. The two parts [splitVariant] returns for a string variant are the
    variant cut in two: the flavor followed by the base type is the variant
    again, and without a match the base type is the whole variant and the
    flavor is [null]. *)
Theorem splitVariant_parts fs fuel path s h buildType flavor :
  result (splitVariant fs fuel path (Str s)) h = Some (Ret (buildType, flavor)) ->
  exists b, buildType = Str b
    /\ ((flavor = Null /\ b = s)
        \/ exists f, flavor = Str f /\ (f ++ b)%string = s).
Proof.
  unfold result. rewrite splitVariant_after_buildTypes. unfold bind at 1.
  destruct (buildTypes_of fs fuel path h) as [[[r|e] h1]|]; try discriminate.
  unfold bind at 1.
  destruct (join_bar r h1) as [[[src|e] h2]|]; try discriminate.
  cbn [ToString].
  destruct (exec_alternation src s) as [index|].
  - cbn. intros [= <- <-]. exists (substring_from index s). split; [reflexivity|].
    right. exists (substring_to index s). split; [reflexivity|].
    apply take_drop_chars.
  - cbn. intros [= <- <-]. exists s. split; [reflexivity|]. by left.
Qed.

Lemma splitVariant_parts_witness :
  exists b, Str "Release" = Str b
    /\ ((Str "demo" = Null /\ b = "demoRelease")
        \/ exists f, Str "demo" = Str f /\ (f ++ b)%string = "demoRelease").
Proof.
  apply (splitVariant_parts gradle_release 200 "app/build.gradle" "demoRelease" ∅).
  vm_compute. reflexivity.
Defined.

(** X6. [splitVariant] cuts a string variant at the leftmost place where one
    of the base types stands, in any case: a base type stands where the
    returned base type begins and none stands at an earlier index; when the
    flavor is [null], no base type stands anywhere in the variant. *)
Theorem splitVariant_leftmost fs fuel path s h l buildType flavor :
  result_array (buildTypes_of fs fuel path) h = Some (Ret l) ->
  result (splitVariant fs fuel path (Str s)) h = Some (Ret (buildType, flavor)) ->
  match flavor with
  | Str f =>
      (exists t, t ∈ l /\ occurs_at t s (String.length f))
      /\ forall t j, t ∈ l -> (j < String.length f)%nat -> ~ occurs_at t s j
  | _ =>
      forall t j, t ∈ l -> (j <= String.length s)%nat -> ~ occurs_at t s j
  end.
Proof.
  intros Htypes. rewrite (splitVariant_result _ _ _ _ _ _ Htypes). cbn [ToString].
  destruct (search (alternation_at l) s 0) as [[index []]|] eqn:Hs.
  - intros [= <- <-].
    apply search_first in Hs as (k & -> & Hk & Hat & Hfirst). cbn [Nat.add].
    unfold substring_to. rewrite length_take_chars by exact Hk.
    split.
    + by apply alternation_at_Some.
    + intros t j Ht Hj. by apply (alternation_at_None l (drop_chars j s)); [apply Hfirst|].
  - intros [= <- <-]. intros t j Ht Hj.
    by apply (alternation_at_None l (drop_chars j s)); [apply (search_None _ _ _ Hs)|].
Qed.

Lemma splitVariant_leftmost_witness :
  (exists t, t ∈ ["debug"; "release"] /\ occurs_at t "demoRelease" (String.length "demo"))
  /\ forall t j, t ∈ ["debug"; "release"] -> (j < String.length "demo")%nat ->
                 ~ occurs_at t "demoRelease" j.
Proof.
  apply (splitVariant_leftmost gradle_release 200 "app/build.gradle" "demoRelease" ∅
           ["debug"; "release"] (Str "Release") (Str "demo")).
  - vm_compute. reflexivity.
  - vm_compute. reflexivity.
Defined.

(** X7. When one of the base types read from the build description is the
    empty string (the identifier captured for a child block without a name
    right before its delimiter), [splitVariant] splits no variant any more:
    every string variant comes back whole as the base type, with the empty
    flavor, and for an absent variant [splitVariant] throws a [TypeError]. *)
Theorem splitVariant_empty_base_type fs fuel path h l :
  result_array (buildTypes_of fs fuel path) h = Some (Ret l) ->
  "" ∈ l ->
  (forall s, result (splitVariant fs fuel path (Str s)) h
             = Some (Ret (Str s, Str "")))
  /\ result (splitVariant fs fuel path Undefined) h = Some (Throw TypeError).
Proof.
  intros Htypes Hempty.
  assert (Hat : forall s, search (alternation_at l) s 0 = Some (0%nat, tt)).
  { intros s.
    assert (alternation_at l s = Some tt) as Hs.
    { apply alternation_at_Some. exists "". split; [exact Hempty|]. cbn. eauto. }
    destruct s; cbn; by rewrite Hs. }
  split.
  - intros s. rewrite (splitVariant_result _ _ _ _ _ _ Htypes). cbn [ToString].
    rewrite Hat. reflexivity.
  - rewrite (splitVariant_result _ _ _ _ _ _ Htypes). by rewrite Hat.
Qed.

Lemma splitVariant_empty_base_type_witness :
  (forall s, result (splitVariant gradle_tab 100 "app/build.gradle" (Str s)) ∅
             = Some (Ret (Str s, Str "")))
  /\ result (splitVariant gradle_tab 100 "app/build.gradle" Undefined) ∅
     = Some (Throw TypeError).
Proof.
  apply (splitVariant_empty_base_type gradle_tab 100 "app/build.gradle" ∅
           ["debug"; "release"; ""]).
  - vm_compute. reflexivity.
  - apply (bool_decide_unpack _). vm_compute. reflexivity.
Defined.

(** * Further properties of the manifest path resolver *)

(** A run of [p]-characters that ends where the text stops or goes on with a
    character outside [p]. *)
Lemma span_len_exact p a rest :
  all_chars p a = true -> span_len p rest = 0%nat ->
  span_len p (a ++ rest) = String.length a.
Proof.
  intros Ha Hrest. induction a as [|x a IH]; [by rewrite append_nil|].
  cbn in Ha. apply andb_true_iff in Ha as [Hx Ha].
  rewrite append_cons. cbn. rewrite Hx. f_equal. by apply IH.
Qed.

(** The anchored pattern takes the whole word of the assignment. *)
Lemma separateBuild_at_exact (ws1 ws2 g rest : string) :
  ws1 <> "" -> all_chars is_space ws1 = true ->
  ws2 <> "" -> all_chars is_space ws2 = true ->
  g <> "" -> all_chars is_word g = true -> word_ends rest ->
  separateBuild_at (separateBuildName ++ ws1 ++ "=" ++ ws2 ++ g ++ rest) = Some g.
Proof.
  intros N1 A1 N2 A2 Ng Ag Hend.
  unfold separateBuild_at. rewrite literal_append.
  change ("=" ++ ?x)%string with (String "=" x).
  rewrite (span_len_stop is_space ws1 "=" _ A1 eq_refl).
  destruct (String.length ws1) as [|n1] eqn:L1; [by destruct ws1|].
  rewrite <- L1, drop_chars_append.
  assert (Hw2 : span_len is_space (ws2 ++ g ++ rest) = String.length ws2).
  { destruct g as [|cg g]; [done|]. rewrite (append_cons cg).
    cbn in Ag. apply andb_true_iff in Ag as [Hcg _].
    apply span_len_stop; [exact A2|by apply word_not_space]. }
  rewrite Hw2.
  destruct (String.length ws2) as [|n2] eqn:L2; [by destruct ws2|].
  rewrite <- L2, drop_chars_append.
  rewrite (span_len_exact is_word g rest Ag Hend).
  destruct (String.length g) as [|k] eqn:Lg; [by destruct g|].
  by rewrite <- Lg, take_chars_append.
Qed.

Lemma separateBuild_at_None s : ~ assignment_at s <-> separateBuild_at s = None.
Proof.
  split.
  - intros Hno. destruct (separateBuild_at s) as [g|] eqn:Hat; [|reflexivity].
    destruct Hno. apply separateBuild_at_sound in Hat as (ws1 & ws2 & rest & H).
    by exists ws1, ws2, g, rest.
  - intros Hnone (ws1 & ws2 & w & rest & -> & N1 & A1 & N2 & A2 & Nw & Aw).
    destruct (separateBuild_at_complete ws1 ws2 w rest N1 A1 N2 A2 Nw Aw) as [g Hg].
    congruence.
Qed.

(** [search] returns the match at the first position where the matcher
    succeeds. *)
Lemma search_leftmost {A} (m : string -> option A) s a : forall pre i,
  (forall k, (k < String.length pre)%nat -> m (drop_chars k (pre ++ s)) = None) ->
  m s = Some a ->
  search m (pre ++ s) i = Some ((i + String.length pre)%nat, a).
Proof.
  induction pre as [|c pre IH]; intros i Hbefore Hm.
  - rewrite append_nil. cbn [String.length]. rewrite Nat.add_0_r.
    destruct s; cbn [search]; by rewrite Hm.
  - rewrite append_cons. cbn [search].
    pose proof (Hbefore 0%nat ltac:(cbn; lia)) as H0.
    rewrite append_cons in H0. cbn [drop_chars] in H0. rewrite H0.
    rewrite (IH (S i)); [f_equal; f_equal; cbn; lia| |exact Hm].
    intros k Hk. specialize (Hbefore (S k) ltac:(cbn; lia)).
    by rewrite append_cons in Hbefore.
Qed.

(** X8. [isSeparateBuildEnabled] reads the leftmost assignment of the
    separate-build flag (the name, white space, an equals sign, white space
    and a word) and takes its whole word: when no assignment starts before
    the one at [pre] and the word [g] ends where [rest] starts, it returns
    whether [g] is "true" in lower case, and leaves the store as it was. *)
Theorem isSeparateBuildEnabled_returns fs path content pre ws1 ws2 g rest :
  fs !! path = Some content ->
  content = (pre ++ separateBuildName ++ ws1 ++ "=" ++ ws2 ++ g ++ rest)%string ->
  ws1 <> "" -> all_chars is_space ws1 = true ->
  ws2 <> "" -> all_chars is_space ws2 = true ->
  g <> "" -> word_only g -> word_ends rest ->
  (forall k, (k < String.length pre)%nat -> ~ assignment_at (drop_chars k content)) ->
  forall h, isSeparateBuildEnabled fs path h
            = Some (Ret (String.eqb (toLowerCase g) "true"), h).
Proof.
  intros Hfile -> N1 A1 N2 A2 Ng Ag Hend Hfirst h.
  rewrite isSeparateBuildEnabled_outcome. unfold separateBuild_outcome.
  rewrite Hfile. unfold match_separateBuild.
  rewrite (search_leftmost separateBuild_at _ g pre 0%nat).
  - reflexivity.
  - intros k Hk. apply separateBuild_at_None. by apply Hfirst.
  - by apply separateBuild_at_exact.
Qed.

Lemma isSeparateBuildEnabled_returns_witness :
  isSeparateBuildEnabled
    (gradle ("def enableSeparateBuildPerCPUArchitecture" ++ TAB ++ "= TrueX;"))
    "app/build.gradle" defaults_at_1
  = Some (Ret (String.eqb (toLowerCase "TrueX") "true"), defaults_at_1).
Proof.
  apply (isSeparateBuildEnabled_returns
           (gradle ("def enableSeparateBuildPerCPUArchitecture" ++ TAB ++ "= TrueX;"))
           "app/build.gradle"
           ("def enableSeparateBuildPerCPUArchitecture" ++ TAB ++ "= TrueX;")
           "def " TAB " " "TrueX" ";").
  - vm_compute. reflexivity.
  - vm_compute. reflexivity.
  - discriminate.
  - vm_compute. reflexivity.
  - discriminate.
  - vm_compute. reflexivity.
  - discriminate.
  - vm_compute. reflexivity.
  - vm_compute. reflexivity.
  - intros k Hk. apply separateBuild_at_None.
    do 4 (destruct k as [|k]; [vm_compute; reflexivity|]).
    cbn in Hk. lia.
Defined.

(** [splitVariant] on a string variant throws only for a missing file. *)
Lemma splitVariant_string_throws fs fuel path s h e :
  result (splitVariant fs fuel path (Str s)) h = Some (Throw e) ->
  e = ENOENT /\ fs !! path = None.
Proof.
  unfold result, splitVariant. unfold bind at 1, alloc.
  set (r := fresh (dom h)). set (h0 := <[r := ["debug"; "release"]]> h).
  assert (Hr : h0 !! r = Some ["debug"; "release"]) by apply lookup_insert_eq.
  unfold bind at 1.
  destruct (fs !! path) as [content|] eqn:Hfile.
  - rewrite (findVariants_array _ _ _ _ _ _ _ _ Hfile Hr).
    destruct (captured fuel "buildTypes" content) as [ts|]; [|discriminate].
    unfold bind at 1, join_bar. rewrite lookup_insert_eq. cbn [ToString].
    destruct (exec_alternation _ s); discriminate.
  - unfold findVariants, readFileSync. rewrite Hfile. cbn. by intros [= <-].
Qed.

(** X9. For a variant that is a string, [getManifestFile] throws in two cases
    only: the error of the file read when there is no build description, and
    the [TypeError] of the absent match when the build description holds no
    assignment of the separate-build flag. *)
Theorem getManifestFile_throws fs fuel s h e :
  result (getManifestFile fs fuel (Str s)) h = Some (Throw e) ->
  (e = ENOENT /\ fs !! "app/build.gradle" = None)
  \/ (e = TypeError
      /\ exists content, fs !! "app/build.gradle" = Some content
                         /\ ~ has_assignment content).
Proof.
  rewrite getManifestFile_result.
  destruct (result (splitVariant fs fuel "app/build.gradle" (Str s)) h)
    as [[ret|e']|] eqn:Hsplit; [| |discriminate].
  - unfold separateBuild_outcome.
    destruct (fs !! "app/build.gradle") as [content|] eqn:Hfile.
    + destruct (match_separateBuild content) as [g|] eqn:Hm; [discriminate|].
      intros [= <-]. right. split; [reflexivity|]. exists content.
      split; [reflexivity|]. by apply match_separateBuild_None.
    + intros [= <-]. by left.
  - intros [= <-]. left. by eapply splitVariant_string_throws.
Qed.

Lemma getManifestFile_throws_witness :
  (TypeError = ENOENT /\ gradle "android { }" !! "app/build.gradle" = None)
  \/ (TypeError = TypeError
      /\ exists content, gradle "android { }" !! "app/build.gradle" = Some content
                         /\ ~ has_assignment content).
Proof.
  apply (getManifestFile_throws (gradle "android { }") 100 "debug" ∅).
  vm_compute. reflexivity.
Defined.

(** X10. Every path [getManifestFile] returns starts with the fixed directory
    "app/build/intermediates/manifests/full/" and ends with
    "/AndroidManifest.xml", whatever the variant and the build description:
    the path is relative and names a manifest. *)
Theorem getManifestFile_path_ends fs fuel variant h p :
  result (getManifestFile fs fuel variant) h = Some (Ret p) ->
  exists middle, p = (manifest_base ++ middle ++ manifest_name)%string.
Proof.
  rewrite getManifestFile_result.
  destruct (result (splitVariant fs fuel "app/build.gradle" variant) h)
    as [[[buildType flavor]|e']|]; [| |discriminate]; [|discriminate].
  destruct (separateBuild_outcome fs "app/build.gradle") as [separate|e']; [|discriminate].
  intros [= <-]. unfold manifest_path, join. cbn [fst snd].
  destruct (ToBoolean flavor), separate; cbn [app map String.concat join_elem].
  - exists (join_elem flavor ++ "/" ++ "x86" ++ "/" ++ join_elem buildType)%string.
    by rewrite !append_assoc.
  - exists (join_elem flavor ++ "/" ++ join_elem buildType)%string.
    by rewrite !append_assoc.
  - exists ("x86" ++ "/" ++ join_elem buildType)%string.
    by rewrite !append_assoc.
  - exists (join_elem buildType). reflexivity.
Qed.

Lemma getManifestFile_path_ends_witness :
  exists middle,
    "app/build/intermediates/manifests/full/demo/Release/AndroidManifest.xml"
    = (manifest_base ++ middle ++ manifest_name)%string.
Proof.
  apply (getManifestFile_path_ends gradle_release 200 (Str "demoRelease") ∅).
  vm_compute. reflexivity.
Defined.

(** * Further properties of the block header *)

Lemma literal_ci_sound p : forall s rest,
  literal Canonicalize p s = Some rest ->
  exists a, s = (a ++ rest)%string /\ ci_eq p a = true.
Proof.
  induction p as [|x p IH]; intros s rest; cbn [literal].
  - intros [= ->]. by exists "".
  - destruct s as [|y s]; [discriminate|].
    destruct (Ascii.eqb (Canonicalize x) (Canonicalize y)) eqn:Hxy; [|discriminate].
    intros (a & -> & Ha)%IH. exists (String y a). split; [reflexivity|].
    cbn. by rewrite Hxy, Ha.
Qed.

Lemma literal_ci_complete p : forall a rest,
  ci_eq p a = true -> literal Canonicalize p (a ++ rest) = Some rest.
Proof.
  induction p as [|x p IH]; intros [|y a] rest; cbn [ci_eq]; try discriminate.
  - reflexivity.
  - intros [Hxy Ha]%andb_true_iff. rewrite append_cons. cbn [literal].
    rewrite Hxy. by apply IH.
Qed.

Lemma header_at_sound name s len :
  header_at name s = Some len ->
  exists nm ws rest : string,
    s = (nm ++ ws ++ "{" ++ rest)%string
    /\ ci_eq name nm = true /\ ws <> "" /\ all_chars is_space ws = true.
Proof.
  unfold header_at.
  destruct (literal Canonicalize name s) as [rest0|] eqn:Hlit; [|discriminate].
  apply literal_ci_sound in Hlit as (nm & -> & Hnm).
  destruct (0 <? span_len is_space rest0)%nat eqn:Hw; [|discriminate]. cbn [andb].
  destruct (strict_eq (String.get (span_len is_space rest0) rest0) "{") eqn:Hb;
    [|discriminate].
  intros _. apply strict_eq_true in Hb. apply Nat.ltb_lt in Hw.
  exists nm, (take_chars (span_len is_space rest0) rest0),
         (drop_chars (S (span_len is_space rest0)) rest0).
  split.
  { f_equal. rewrite <- (take_drop_chars (span_len is_space rest0) rest0) at 1.
    f_equal. rewrite (get_drop_chars (span_len is_space rest0) rest0), Hb.
    reflexivity. }
  split; [exact Hnm|]. split; [|apply span_len_all].
  destruct rest0 as [|c rest0]; [cbn in Hw; lia|].
  destruct (span_len is_space (String c rest0)); [lia|discriminate].
Qed.

Lemma header_at_complete name (nm ws rest : string) :
  ci_eq name nm = true -> ws <> "" -> all_chars is_space ws = true ->
  is_Some (header_at name (nm ++ ws ++ "{" ++ rest)).
Proof.
  intros Hnm Hne Hws. unfold header_at.
  rewrite (literal_ci_complete _ _ _ Hnm).
  change ("{" ++ rest)%string with (String "{" rest).
  rewrite (span_len_stop is_space ws "{" rest Hws eq_refl).
  replace (String.get (String.length ws) (ws ++ String "{" rest))
    with (Some "{"%char).
  - destruct ws; [done|]. cbn. eauto.
  - rewrite <- (Nat.add_0_r (String.length ws)), get_append_r. reflexivity.
Qed.

(** The header pattern matches exactly the texts with a header. *)
Lemma exec_header_None name content :
  exec_header name content = None <-> ~ has_header name content.
Proof.
  unfold exec_header. split.
  - intros Hnone (pre & nm & ws & rest & -> & Hnm & Hne & Hws).
    destruct (search_complete (header_at name) pre _ 0%nat
                (header_at_complete name nm ws rest Hnm Hne Hws)) as [[j len] Hs].
    by rewrite Hs in Hnone.
  - intros Hno.
    destruct (search (header_at name) content 0) as [[j len]|] eqn:Hs; [|reflexivity].
    destruct Hno. apply search_Some in Hs as (k & _ & _ & Hat).
    apply header_at_sound in Hat as (nm & ws & rest & Heq & H).
    exists (take_chars k content), nm, ws, rest. split; [|exact H].
    rewrite <- Heq. symmetry. apply take_drop_chars.
Qed.

(** X11. For a block name made of word characters (such a name spliced into
    the pattern stands for itself), when the text holds no header of the
    block (the name in any case, then white space, then an opening
    delimiter), [findVariants] returns the defaults it was given and changes
    nothing, for every step budget; without defaults it returns a new empty
    array. *)
Theorem findVariants_without_header fs path name content :
  word_only name ->
  fs !! path = Some content ->
  ~ has_header name content ->
  (forall fuel r h, findVariants fs fuel path name (Some r) h = Some (Ret r, h))
  /\ (forall fuel h,
        findVariants fs fuel path name None h
        = Some (Ret (fresh (dom h)), <[fresh (dom h) := []]> h)).
Proof.
  intros _ Hfile Hno. apply exec_header_None in Hno.
  split; intros; unfold findVariants, readFileSync; rewrite Hfile;
    unfold bind at 1, pure at 1; unfold bind at 1; cbn; by rewrite Hno.
Qed.

Lemma findVariants_without_header_witness :
  (forall fuel r h,
      findVariants (gradle "android { buildTypes{ staging { } } }") fuel
        "app/build.gradle" "buildTypes" (Some r) h = Some (Ret r, h))
  /\ (forall fuel h,
        findVariants (gradle "android { buildTypes{ staging { } } }") fuel
          "app/build.gradle" "buildTypes" None h
        = Some (Ret (fresh (dom h)), <[fresh (dom h) := []]> h)).
Proof.
  apply (findVariants_without_header _ _ _ "android { buildTypes{ staging { } } }").
  - vm_compute. reflexivity.
  - vm_compute. reflexivity.
  - apply exec_header_None. vm_compute. reflexivity.
Defined.

(** * The identifiers read from the manifest *)

(** What [.+?] takes: at least one character, no line terminator, and the
    shortest run after which the rest of the pattern matches. *)
Lemma lazy_dots_sound {A} (k : string -> option A) s : forall n m a,
  lazy_dots k s n = Some (m, a) ->
  exists j, m = (n + S j)%nat
    /\ all_chars is_dot (take_chars (S j) s) = true
    /\ (S j <= String.length s)%nat
    /\ k (drop_chars (S j) s) = Some a
    /\ forall j', (j' < j)%nat -> k (drop_chars (S j') s) = None.
Proof.
  induction s as [|c s IH]; intros n m a; cbn [lazy_dots]; [discriminate|].
  destruct (is_dot c) eqn:Hc; [|discriminate].
  destruct (k s) as [a'|] eqn:Hk.
  - intros [= <- <-]. exists 0%nat. cbn. rewrite Hc.
    repeat split; [lia|lia|exact Hk|lia].
  - intros (j & -> & Hall & Hlen & Hm & Hfirst)%IH.
    exists (S j). repeat split; [lia| |cbn; lia|exact Hm|].
    + cbn [take_chars all_chars]. cbn [take_chars] in Hall. by rewrite Hc, Hall.
    + intros [|j'] Hj'; [by destruct s|]. apply Hfirst. lia.
Qed.

Lemma lazy_dots_complete {A} (k : string -> option A) g : forall rest n,
  g <> "" -> all_chars is_dot g = true -> is_Some (k rest) ->
  is_Some (lazy_dots k (g ++ rest) n).
Proof.
  induction g as [|c g IH]; intros rest n Hne Hall Hk; [done|].
  cbn in Hall. apply andb_true_iff in Hall as [Hc Hall].
  rewrite append_cons. cbn [lazy_dots]. rewrite Hc.
  destruct (k (g ++ rest)) as [a|] eqn:Hkg; [eauto|].
  destruct g as [|c' g]; [rewrite append_nil in Hkg; rewrite Hkg in Hk; by destruct Hk|].
  by apply IH.
Qed.

Lemma take_chars_add (a b : string) n :
  take_chars (String.length a + n) (a ++ b) = (a ++ take_chars n b)%string.
Proof.
  induction a as [|x a IH]; [by rewrite !append_nil|].
  rewrite !append_cons. cbn. by rewrite IH.
Qed.

Lemma get_take_chars n : forall s j,
  (j < n)%nat -> String.get j (take_chars n s) = String.get j s.
Proof.
  induction n as [|n IH]; intros [|c s] j Hj; try lia; try reflexivity.
  destruct j as [|j]; [reflexivity|]. cbn. apply IH. lia.
Qed.

Lemma literal_None_get p0 s :
  literal (fun c => c) (String p0 "") s = None -> String.get 0 s <> Some p0.
Proof.
  destruct s as [|c s]; cbn; [discriminate|].
  destruct (Ascii.eqb p0 c) eqn:Hc; [discriminate|].
  apply Ascii.eqb_neq in Hc. congruence.
Qed.

Lemma package_at_sound s g :
  package_at s = Some g ->
  exists rest : string,
    s = (("package=" ++ DQ) ++ g ++ DQ ++ rest)%string
    /\ g <> "" /\ all_chars is_dot g = true
    /\ forall j, (1 <= j < String.length g)%nat ->
                 String.get j g <> Some (ascii_of_N 34).
Proof.
  unfold package_at.
  destruct (literal _ ("package=" ++ DQ) s) as [rest0|] eqn:Hlit; [|discriminate].
  apply literal_exact in Hlit as ->.
  destruct (lazy_dots (literal (fun c => c) DQ) rest0 0) as [[m rest]|] eqn:Hlazy;
    [|discriminate].
  intros Hg. assert (g = take_chars m rest0) as -> by congruence. clear Hg.
  apply lazy_dots_sound in Hlazy as (j & -> & Hall & Hlen & Hq & Hfirst).
  change (0 + S j)%nat with (S j). apply literal_exact in Hq.
  exists rest. split.
  { f_equal. rewrite <- (take_drop_chars (S j) rest0) at 1. by rewrite Hq. }
  split. { destruct rest0; [cbn in Hlen; lia|discriminate]. }
  split; [exact Hall|].
  intros j' Hj'. rewrite length_take_chars in Hj' by exact Hlen.
  rewrite get_take_chars by lia.
  destruct j' as [|j']; [lia|].
  specialize (Hfirst j' ltac:(lia)). apply literal_None_get in Hfirst.
  by rewrite get_drop_chars_add, Nat.add_0_r in Hfirst.
Qed.

Lemma package_at_complete (g rest : string) :
  g <> "" -> all_chars is_dot g = true ->
  is_Some (package_at (("package=" ++ DQ) ++ g ++ DQ ++ rest)).
Proof.
  intros Hne Hall. unfold package_at. rewrite literal_append.
  destruct (lazy_dots_complete (literal (fun c => c) DQ) g (DQ ++ rest) 0 Hne Hall)
    as [[m a] ->]; [|eauto].
  rewrite literal_append. eauto.
Qed.

(** X12. The package name [buildAndRun] reads from the manifest stands in it
    between [package=] with a quote and a quote; it is not empty and holds no
    line terminator, and no quote after its first character (the first
    character can be a quote: the pattern asks for at least one character).
    The match is absent, and reading its group throws, exactly when the
    manifest holds no such attribute. *)
Theorem match_package_shape content :
  (forall g, match_package content = Some g ->
     exists pre rest : string,
       content = (pre ++ ("package=" ++ DQ) ++ g ++ DQ ++ rest)%string
       /\ g <> "" /\ all_chars is_dot g = true
       /\ forall j, (1 <= j < String.length g)%nat ->
                    String.get j g <> Some (ascii_of_N 34))
  /\ (match_package content = None <-> ~ has_package content).
Proof.
  unfold match_package. split; [|split].
  - intros g.
    destruct (search package_at content 0) as [[i g']|] eqn:Hs; [|discriminate].
    intros [= ->]. apply search_Some in Hs as (k & _ & _ & Hat).
    apply package_at_sound in Hat as (rest & Heq & H).
    exists (take_chars k content), rest. split; [|exact H].
    rewrite <- Heq. symmetry. apply take_drop_chars.
  - intros Hnone (pre & g & rest & -> & Hne & Hall).
    destruct (search_complete package_at pre _ 0%nat (package_at_complete g rest Hne Hall))
      as [[j g'] Hs].
    by rewrite Hs in Hnone.
  - intros Hno.
    destruct (search package_at content 0) as [[i g]|] eqn:Hs; [|reflexivity].
    destruct Hno. apply search_Some in Hs as (k & _ & _ & Hat).
    apply package_at_sound in Hat as (rest & Heq & Hne & Hall & _).
    exists (take_chars k content), g, rest. split; [|done].
    rewrite <- Heq. symmetry. apply take_drop_chars.
Qed.

Lemma match_package_shape_witness :
  exists pre rest : string,
    manifest_sample = (pre ++ ("package=" ++ DQ) ++ "com.app" ++ DQ ++ rest)%string
    /\ "com.app" <> "" /\ all_chars is_dot "com.app" = true
    /\ forall j, (1 <= j < String.length "com.app")%nat ->
                 String.get j "com.app" <> Some (ascii_of_N 34).
Proof.
  destruct (match_package_shape manifest_sample) as [Hshape _].
  apply (Hshape "com.app"). vm_compute. reflexivity.
Defined.

Lemma activity_tail_sound cls t rest :
  activity_tail cls t = Some rest ->
  exists x, t = String x (cls ++ DQ ++ rest) /\ is_dot x = true.
Proof.
  unfold activity_tail. destruct t as [|x t]; [discriminate|].
  destruct (is_dot x) eqn:Hx; [|discriminate].
  destruct (literal (fun c => c) cls t) as [t'|] eqn:Hcls; [|discriminate].
  intros Hq. apply literal_exact in Hcls, Hq. subst. by exists x.
Qed.

Lemma activity_tail_complete cls x rest :
  is_dot x = true -> activity_tail cls (String x (cls ++ DQ ++ rest)) = Some rest.
Proof. intros Hx. cbn. by rewrite Hx, !literal_append. Qed.

Lemma activity_at_sound cls s g :
  activity_at cls s = Some g ->
  exists p x rest,
    s = (("android:name=" ++ DQ) ++ g ++ DQ ++ rest)%string
    /\ g = (p ++ String x cls)%string
    /\ p <> "" /\ all_chars is_dot p = true /\ is_dot x = true.
Proof.
  unfold activity_at.
  destruct (literal _ ("android:name=" ++ DQ) s) as [rest0|] eqn:Hlit; [|discriminate].
  apply literal_exact in Hlit as ->.
  destruct (lazy_dots (activity_tail cls) rest0 0) as [[m rest]|] eqn:Hlazy;
    [|discriminate].
  intros [= <-].
  apply lazy_dots_sound in Hlazy as (j & -> & Hall & Hlen & Htail & _).
  cbn [Nat.add]. apply activity_tail_sound in Htail as (x & Hdrop & Hx).
  set (p := take_chars (S j) rest0) in *.
  assert (Hrest0 : rest0 = (p ++ String x (cls ++ DQ ++ rest))%string)
    by (rewrite <- Hdrop; symmetry; apply take_drop_chars).
  assert (Hp : String.length p = S j) by (by apply length_take_chars).
  assert (Hg : take_chars (S j + 1 + String.length cls) rest0 = (p ++ String x cls)%string).
  { rewrite Hrest0 at 1. rewrite <- Hp, <- Nat.add_assoc, take_chars_add. f_equal.
    cbn [Nat.add take_chars]. f_equal.
    rewrite <- (Nat.add_0_r (String.length cls)), take_chars_add.
    destruct (DQ ++ rest)%string; apply append_nil_r. }
  exists p, x, rest.
  change (S (j + 1 + String.length cls)) with (S j + 1 + String.length cls)%nat.
  rewrite Hg. split.
  { f_equal. rewrite Hrest0 at 1. by rewrite append_assoc, append_cons. }
  split; [reflexivity|]. split; [|by split].
  subst p. destruct rest0; [cbn in Hlen; lia|discriminate].
Qed.

Lemma activity_at_complete cls p x rest :
  p <> "" -> all_chars is_dot p = true -> is_dot x = true ->
  is_Some (activity_at cls (("android:name=" ++ DQ) ++ p
                            ++ String x (cls ++ DQ ++ rest))).
Proof.
  intros Hne Hall Hx. unfold activity_at. rewrite literal_append.
  destruct (lazy_dots_complete (activity_tail cls) p (String x (cls ++ DQ ++ rest)) 0
              Hne Hall) as [[m a] ->]; [|eauto].
  rewrite (activity_tail_complete cls x rest Hx). eauto.
Qed.

(** X13. For a class name made of word characters (such a name spliced into
    the pattern stands for itself), [findActivityName] returns a name that
    stands in the manifest between [android:name=] with a quote and a quote,
    and that is the class name after at least two characters without a line
    terminator; the character right before the class name is any such
    character, not only a dot.  It throws the [TypeError] of the absent match
    exactly when the manifest holds no such attribute. *)
Theorem findActivityName_shape content activityClass :
  word_only activityClass ->
  (forall g, findActivityName content activityClass = Ret g ->
     exists pre p x rest,
       content = (pre ++ ("android:name=" ++ DQ) ++ g ++ DQ ++ rest)%string
       /\ g = (p ++ String x activityClass)%string
       /\ p <> "" /\ all_chars is_dot p = true /\ is_dot x = true)
  /\ (findActivityName content activityClass = Throw TypeError
      <-> ~ has_activity activityClass content).
Proof.
  intros _. unfold findActivityName. split.
  - intros g.
    destruct (search (activity_at activityClass) content 0) as [[i g']|] eqn:Hs;
      [|discriminate].
    intros [= ->]. apply search_Some in Hs as (k & _ & _ & Hat).
    apply activity_at_sound in Hat as (p & x & rest & Heq & H).
    exists (take_chars k content), p, x, rest. split; [|exact H].
    rewrite <- Heq. symmetry. apply take_drop_chars.
  - split.
    + intros Hthrow (pre & p & x & rest & -> & Hne & Hall & Hx).
      destruct (search_complete (activity_at activityClass) pre _ 0%nat
                  (activity_at_complete activityClass p x rest Hne Hall Hx))
        as [[j g'] Hs].
      by rewrite Hs in Hthrow.
    + intros Hno.
      destruct (search (activity_at activityClass) content 0) as [[i g]|] eqn:Hs;
        [|reflexivity].
      destruct Hno. apply search_Some in Hs as (k & _ & _ & Hat).
      apply activity_at_sound in Hat as (p & x & rest & Heq & -> & Hne & Hall & Hx).
      exists (take_chars k content), p, x, rest. split; [|done].
      rewrite <- (take_drop_chars k content) at 1. f_equal. rewrite Heq.
      f_equal. by rewrite append_assoc, append_cons.
Qed.

Lemma findActivityName_shape_witness :
  exists pre p x rest,
    manifest_sample
    = (pre ++ ("android:name=" ++ DQ) ++ "com.app.MainActivity" ++ DQ ++ rest)%string
    /\ "com.app.MainActivity" = (p ++ String x "MainActivity")%string
    /\ p <> "" /\ all_chars is_dot p = true /\ is_dot x = true.
Proof.
  assert (Hword : word_only "MainActivity") by (vm_compute; reflexivity).
  destruct (findActivityName_shape manifest_sample "MainActivity" Hword) as [Hshape _].
  apply (Hshape "com.app.MainActivity"). vm_compute. reflexivity.
Defined.

(** * Properties of [buildAndRun] *)

Lemma spawned_app evs1 evs2 : spawned (evs1 ++ evs2) = (spawned evs1 ++ spawned evs2)%list.
Proof.
  induction evs1 as [|ev evs1 IH]; [reflexivity|].
  destruct ev; cbn; by rewrite ?IH.
Qed.

Lemma spawned_start_on adbPath pkg act devices :
  spawned (flat_map (start_on adbPath pkg act) devices)
  = map (fun device =>
           (adbPath, ["-s"; device; "shell"; "am"; "start"; "-n";
                      (pkg ++ "/" ++ act)%string])) devices.
Proof. induction devices as [|d ds IH]; [reflexivity|]. cbn. by rewrite IH. Qed.

Lemma reject_not_started adbPath pkg act devices :
  reject ∉ (flat_map (start_on adbPath pkg act) devices).
Proof.
  induction devices as [|d ds IH]; [apply not_elem_of_nil|].
  cbn. intros H. apply elem_of_cons in H as [H|H]; [discriminate|].
  apply elem_of_cons in H as [H|H]; [discriminate|]. by apply IH.
Qed.

(** The events up to the gradle run start no process through [spawnSync] and
    do not reject. *)
Lemma gradleArgs_of_events toUpperCase a :
  spawned (gradleArgs_of toUpperCase a).1 = []
  /\ (reject ∉ (gradleArgs_of toUpperCase a).1).
Proof.
  unfold gradleArgs_of. cbn [fst].
  destruct (ToBoolean (args_variant a)); cbn [fst].
  - split; [reflexivity|apply not_elem_of_nil].
  - destruct (ToBoolean (args_flavor a)); cbn [fst].
    + split; [reflexivity|]. intros H.
      apply elem_of_cons in H as [H|H]; [discriminate|by apply elem_of_nil in H].
    + split; [reflexivity|apply not_elem_of_nil].
Qed.

(** What [launch] does when it returns. *)
Lemma launch_started proc fs fuel a started :
  launch proc fs fuel a = Some (Ret started) ->
  (reject ∉ started) /\ spawned started <> [].
Proof.
  unfold launch.
  destruct (result (getManifestFile fs fuel (args_variant a)) ∅) as [[p|e]|];
    try discriminate.
  destruct (fs !! p) as [content|]; [|discriminate].
  destruct (match_package content) as [pkg|]; [|discriminate].
  destruct (findActivityName content "MainActivity") as [act|e]; [|discriminate].
  assert (Hfallback : (reject ∉ start_fallback (adbPath_of proc) pkg act)
                      /\ spawned (start_fallback (adbPath_of proc) pkg act) <> []).
  { split; [|discriminate]. unfold start_fallback. intros H.
    apply elem_of_cons in H as [H|H]; [discriminate|].
    apply elem_of_cons in H as [H|H]; [discriminate|by apply elem_of_nil in H]. }
  destruct (getDevices proc) as [[[|d ds]|]|e]; try discriminate; intros Heq.
  - by assert (started = start_fallback (adbPath_of proc) pkg act) as -> by congruence.
  - assert (started = flat_map (start_on (adbPath_of proc) pkg act) (d :: ds)) as ->
      by congruence.
    split; [apply reject_not_started|]. rewrite spawned_start_on. discriminate.
  - by assert (started = start_fallback (adbPath_of proc) pkg act) as -> by congruence.
Qed.

Lemma build_events_quiet toUpperCase path_join proc a :
  (reject ∉ build_events toUpperCase path_join proc a)
  /\ spawned (build_events toUpperCase path_join proc a) = [].
Proof.
  destruct (gradleArgs_of_events toUpperCase a) as [Hspawn Hreject].
  unfold build_events. split.
  - intros H. apply elem_of_cons in H as [H|H]; [discriminate|].
    apply elem_of_app in H as [H|H]; [by apply Hreject|].
    apply elem_of_cons in H as [H|H]; [discriminate|].
    apply elem_of_cons in H as [H|H]; [discriminate|by apply elem_of_nil in H].
  - cbn [app spawned]. by rewrite spawned_app, Hspawn.
Qed.

Lemma buildAndRun_unfold toUpperCase path_join proc fs fuel a :
  buildAndRun toUpperCase path_join proc fs fuel a =
  match chdir_throws proc with
  | Some e => Some (Throw e)
  | None =>
      if gradle_throws proc then
        Some (Ret (build_events toUpperCase path_join proc a
                   ++ [console_log red msg_could_not_install; reject])%list)
      else
        match launch proc fs fuel a with
        | None => None
        | Some (Throw _) =>
            Some (Ret (build_events toUpperCase path_join proc a
                       ++ [console_log red msg_adb_failed; reject])%list)
        | Some (Ret started) =>
            Some (Ret (build_events toUpperCase path_join proc a ++ started)%list)
        end
  end.
Proof. reflexivity. Qed.

(** X14. A run of [buildAndRun] that returns ends in one of two ways: it
    rejects, once, as its last action and right after a red message, without
    having started the app through [spawnSync]; or it does not reject and has
    started the app at least once. *)
Theorem buildAndRun_rejects_or_starts toUpperCase path_join proc fs fuel a evs :
  buildAndRun toUpperCase path_join proc fs fuel a = Some (Ret evs) ->
  (exists before message,
      evs = (before ++ [console_log red message; reject])%list
      /\ (reject ∉ before) /\ spawned evs = [])
  \/ ((reject ∉ evs) /\ spawned evs <> []).
Proof.
  rewrite buildAndRun_unfold.
  destruct (chdir_throws proc); [discriminate|].
  destruct (build_events_quiet toUpperCase path_join proc a) as [Hbr Hbs].
  set (build := build_events toUpperCase path_join proc a) in *.
  destruct (gradle_throws proc).
  - intros Heq.
    assert (evs = (build ++ [console_log red msg_could_not_install; reject])%list) as ->
      by congruence.
    left. exists build, msg_could_not_install.
    split; [reflexivity|]. split; [exact Hbr|]. by rewrite spawned_app, Hbs.
  - destruct (launch proc fs fuel a) as [[started|e]|] eqn:Hlaunch; [| |discriminate].
    + intros Heq. assert (evs = (build ++ started)%list) as -> by congruence.
      right. apply launch_started in Hlaunch as [Hsr Hss]. split.
      * intros H. apply elem_of_app in H as [H|H]; [by apply Hbr|by apply Hsr].
      * rewrite spawned_app, Hbs. exact Hss.
    + intros Heq.
      assert (evs = (build ++ [console_log red msg_adb_failed; reject])%list) as ->
        by congruence.
      left. exists build, msg_adb_failed.
      split; [reflexivity|]. split; [exact Hbr|]. by rewrite spawned_app, Hbs.
Qed.

Lemma buildAndRun_rejects_or_starts_witness :
  (exists before message,
      (build_events upper_ascii join_empty_root process_sample args_none
       ++ [console_log red msg_adb_failed; reject])%list
      = (before ++ [console_log red message; reject])%list
      /\ (reject ∉ before)
      /\ spawned (build_events upper_ascii join_empty_root process_sample args_none
                  ++ [console_log red msg_adb_failed; reject])%list = [])
  \/ ((reject ∉ (build_events upper_ascii join_empty_root process_sample args_none
                 ++ [console_log red msg_adb_failed; reject])%list)
      /\ spawned (build_events upper_ascii join_empty_root process_sample args_none
                  ++ [console_log red msg_adb_failed; reject])%list <> []).
Proof.
  apply (buildAndRun_rejects_or_starts upper_ascii join_empty_root process_sample
           project_built 200 args_none).
  vm_compute. reflexivity.
Defined.

(** X15. When the gradle run succeeds and the manifest of the variant holds a
    package and the main activity, [buildAndRun] does not reject and starts
    the app once on every listed device, in the order of the list, through
    [adb -s device shell am start -n package/activity]; when no device is
    listed it starts the app once, without [-s]. *)
Theorem buildAndRun_starts_on_each_device
    toUpperCase path_join proc fs fuel a p manifest pkg act listed :
  chdir_throws proc = None ->
  gradle_throws proc = false ->
  result (getManifestFile fs fuel (args_variant a)) ∅ = Some (Ret p) ->
  fs !! p = Some manifest ->
  match_package manifest = Some pkg ->
  findActivityName manifest "MainActivity" = Ret act ->
  getDevices proc = Ret listed ->
  exists evs,
    buildAndRun toUpperCase path_join proc fs fuel a = Some (Ret evs)
    /\ (reject ∉ evs)
    /\ spawned evs =
       match listed with
       | Some (device :: devices) => map (adb_start_on proc pkg act) (device :: devices)
       | _ => [adb_start proc pkg act]
       end.
Proof.
  intros Hchdir Hgradle Hpath Hfile Hpkg Hact Hdev.
  assert (Hlaunch : exists started,
             launch proc fs fuel a = Some (Ret started)
             /\ spawned started =
                match listed with
                | Some (device :: devices) =>
                    map (adb_start_on proc pkg act) (device :: devices)
                | _ => [adb_start proc pkg act]
                end).
  { unfold launch. rewrite Hpath, Hfile, Hpkg, Hact, Hdev.
    destruct listed as [[|d ds]|]; eexists; (split; [reflexivity|]);
      [reflexivity|apply spawned_start_on|reflexivity]. }
  destruct Hlaunch as (started & Hlaunch & Hspawned).
  destruct (build_events_quiet toUpperCase path_join proc a) as [Hbr Hbs].
  exists (build_events toUpperCase path_join proc a ++ started)%list.
  rewrite buildAndRun_unfold, Hchdir, Hgradle, Hlaunch.
  split; [reflexivity|].
  apply launch_started in Hlaunch as [Hsr _]. split.
  - intros H. apply elem_of_app in H as [H|H]; [by apply Hbr|by apply Hsr].
  - by rewrite spawned_app, Hbs.
Qed.

Lemma buildAndRun_starts_on_each_device_witness :
  exists evs,
    buildAndRun upper_ascii join_empty_root process_sample project_built 200
      args_demoRelease = Some (Ret evs)
    /\ (reject ∉ evs)
    /\ spawned evs =
       map (adb_start_on process_sample "com.app" "com.app.MainActivity")
         ["emulator-5554"; "0a388e93"].
Proof.
  apply (buildAndRun_starts_on_each_device upper_ascii join_empty_root process_sample
           project_built 200 args_demoRelease
           "app/build/intermediates/manifests/full/demo/Release/AndroidManifest.xml"
           manifest_sample "com.app" "com.app.MainActivity"
           (Some ["emulator-5554"; "0a388e93"])).
  - reflexivity.
  - reflexivity.
  - vm_compute. reflexivity.
  - vm_compute. reflexivity.
  - vm_compute. reflexivity.
  - vm_compute. reflexivity.
  - reflexivity.
Defined.

(** X16. Without a variant, a flavor or an extra gradle argument, on a
    project whose base types are the defaults and whose build description
    holds the separate-build assignment, [buildAndRun] runs the gradle task
    [installDebug] and then reads the manifest from a path with an empty
    base-type segment, [full//AndroidManifest.xml] or
    [full/x86//AndroidManifest.xml].  A file system skips the empty segment:
    the read answers what a read of [full/AndroidManifest.xml] or
    [full/x86/AndroidManifest.xml] answers.  When the project holds no
    manifest there, the run prints "adb invocation failed" and rejects, and
    starts nothing, also when the manifest of the debug variant lies in
    [full/debug]. *)
Theorem buildAndRun_without_variant
    toUpperCase path_join proc fs fuel a content g :
  args_variant a = Undefined ->
  args_flavor a = Undefined ->
  args_install_debug a = Undefined ->
  chdir_throws proc = None ->
  gradle_throws proc = false ->
  fs !! "app/build.gradle" = Some content ->
  match_separateBuild content = Some g ->
  result_array (buildTypes_of fs fuel "app/build.gradle") ∅ = Some (Ret ["debug"; "release"]) ->
  fs !! "app/build/intermediates/manifests/full//AndroidManifest.xml"
  = fs !! "app/build/intermediates/manifests/full/AndroidManifest.xml" ->
  fs !! "app/build/intermediates/manifests/full/x86//AndroidManifest.xml"
  = fs !! "app/build/intermediates/manifests/full/x86/AndroidManifest.xml" ->
  fs !! "app/build/intermediates/manifests/full/AndroidManifest.xml" = None ->
  fs !! "app/build/intermediates/manifests/full/x86/AndroidManifest.xml" = None ->
  exists cmd,
    cmd = (if String.prefix "win" (platform proc) then "gradlew.bat" else "./gradlew")
    /\ buildAndRun toUpperCase path_join proc fs fuel a
    = Some (Ret [ chdir (path_join (args_root a) "android");
                  console_log bold (msg_building cmd ["installDebug"]);
                  execFileSync cmd ["installDebug"];
                  console_log red msg_adb_failed;
                  reject ]).
Proof.
  intros Hv Hf Hi Hchdir Hgradle Hfile Hflag Htypes Hskip Hskip86 Hno Hno86.
  exists (if String.prefix "win" (platform proc) then "gradlew.bat" else "./gradlew").
  assert (Hlaunch : launch proc fs fuel a = Some (Throw ENOENT)).
  { unfold launch. rewrite Hv, getManifestFile_result.
    rewrite (splitVariant_defaults _ _ _ _ _ Htypes).
    change (exec_alternation "debug|release" (ToString Undefined)) with (@None nat).
    unfold separateBuild_outcome. rewrite Hfile, Hflag.
    destruct (String.eqb (toLowerCase g) "true").
    - change (manifest_path (Undefined, Null) true)
        with "app/build/intermediates/manifests/full/x86//AndroidManifest.xml".
      by rewrite Hskip86, Hno86.
    - change (manifest_path (Undefined, Null) false)
        with "app/build/intermediates/manifests/full//AndroidManifest.xml".
      by rewrite Hskip, Hno. }
  split; [reflexivity|].
  rewrite buildAndRun_unfold, Hchdir, Hgradle, Hlaunch.
  unfold build_events, gradleArgs_of. rewrite Hv, Hf, Hi. reflexivity.
Qed.

Lemma buildAndRun_without_variant_witness :
  exists cmd,
    cmd = (if String.prefix "win" (platform process_sample)
           then "gradlew.bat" else "./gradlew")
    /\ buildAndRun upper_ascii join_empty_root process_sample project_built_debug 200
         args_none
    = Some (Ret [ chdir (join_empty_root (args_root args_none) "android");
                  console_log bold (msg_building cmd ["installDebug"]);
                  execFileSync cmd ["installDebug"];
                  console_log red msg_adb_failed;
                  reject ]).
Proof.
  apply (buildAndRun_without_variant upper_ascii join_empty_root process_sample
           project_built_debug 200 args_none
           ("android {" ++ LF ++ "  buildTypes {" ++ LF ++ "    release {" ++ LF
            ++ "      minifyEnabled false" ++ LF ++ "    }" ++ LF ++ "  }" ++ LF ++ "}" ++ LF
            ++ "def enableSeparateBuildPerCPUArchitecture = false" ++ LF)
           "false").
  - reflexivity.
  - reflexivity.
  - reflexivity.
  - reflexivity.
  - reflexivity.
  - vm_compute. reflexivity.
  - vm_compute. reflexivity.
  - vm_compute. reflexivity.
  - vm_compute. reflexivity.
  - vm_compute. reflexivity.
  - vm_compute. reflexivity.
  - vm_compute. reflexivity.
Defined.
